(** * Repository-analysis stage of the code-grading pipeline

    A shallow embedding of [code_grading/agents/agent2]:
    - [git_client.py]    ([GitClient]: clone into a scratch directory, cleanup),
    - [code_analyzer.py] ([CodeAnalyzer]: per-file code-line count, repository
                          metrics, grade),
    - [worker.py]        ([RepoWorker.process]: the per-job pipeline),
    - [runner.py]        ([Agent2._process_parallel]: the worker pool;
                          [Agent2.run] and [Agent2._save_results]),
    and of what they call and what calls them: [common/status.py],
    [common/excel_handler.py] ([read_with_status], [atomic_write]) and
    [orchestrator/pipeline.py]; followed by the properties of the
    specification that concern them and by further properties of the code.

    Conventions of the embedding.
    - Python exceptions are explicit: a call returns [Ok v] or [Raise e].
    - Code that touches the scratch area of the file system is written in a
      state-and-exception monad over that area; an exception keeps the
      effects performed before it, as in Python.
    - What the program gets from outside (the [git] executable, the Python
      parser [ast.parse], whether [shutil.rmtree] manages to delete) is a
      field of [World]; every general theorem holds for every world.
    - Python floats are IEEE-754 binary64 values, kept as the rational they
      denote; every float operation rounds to nearest, ties to even.
    - Logging calls have no influence on results and are left out. *)

From Stdlib Require Import ZArith QArith Qabs Lia List.
From stdpp Require Import base numbers gmap list strings.
From Equations Require Import Equations.

Close Scope Q_scope.
Set Warnings "-register-all,-clear-no-such-hyp".

(** ** Python values, exceptions, and the effect monads *)

Module Py.

(** The exception classes the modelled code can meet.  All of them derive from
    [Exception], so an [except Exception] clause catches each of them.
    [SyntaxError] stands for itself and its subclasses ([IndentationError],
    [TabError]); [OSError] for itself and its subclasses ([PermissionError],
    [FileNotFoundError], [IsADirectoryError]); [ValueError] for the
    [ValueError]s that are not [UnicodeDecodeError]. *)
Inductive exn : Set :=
| KeyError
| TypeError
| ZeroDivisionError
| OverflowError
| ValueError
| UnicodeDecodeError
| SyntaxError
| RecursionError
| MemoryError
| OSError
| CalledProcessError
| TimeoutExpired.

Inductive result (A : Type) : Type :=
| Ok (a : A)
| Raise (e : exn).

Arguments Ok {A} a.
Arguments Raise {A} e.

Definition rbind {A B} (c : result A) (k : A -> result B) : result B :=
  match c with
  | Ok a => k a
  | Raise e => Raise e
  end.

(** [try: body / except <classes>: handler].  [handler e] is [None] when no
    clause matches [e], which then propagates. *)
Definition try_except {A} (body : result A) (handler : exn -> option (result A))
  : result A :=
  match body with
  | Ok a => Ok a
  | Raise e => match handler e with
               | Some r => r
               | None => Raise e
               end
  end.

(** State and exceptions: the state reached when the exception was raised is
    kept. *)
Definition M (S A : Type) : Type := S -> result A * S.

Definition ret {S A} (a : A) : M S A := fun s => (Ok a, s).

Definition raise {S A} (e : exn) : M S A := fun s => (Raise e, s).

Definition bind {S A B} (c : M S A) (k : A -> M S B) : M S B :=
  fun s => match c s with
           | (Ok a, s1) => k a s1
           | (Raise e, s1) => (Raise e, s1)
           end.

Definition lift {S A} (r : result A) : M S A := fun s => (r, s).

Definition gets {S A} (f : S -> A) : M S A := fun s => (Ok (f s), s).

Definition modify {S} (f : S -> S) : M S unit := fun s => (Ok tt, f s).

(** [try: body / except <classes>: handler] for stateful code. *)
Definition try_except_M {S A} (body : M S A) (handler : exn -> option (M S A))
  : M S A :=
  fun s => match body s with
           | (Ok a, s1) => (Ok a, s1)
           | (Raise e, s1) => match handler e with
                              | Some h => h s1
                              | None => (Raise e, s1)
                              end
           end.

(** [try: body / finally: final].  The final clause runs on every exit of the
    body; the body's outcome (a returned value or a pending exception) stands
    unless the final clause itself raises. *)
Definition try_finally {S A} (body : M S A) (final : M S unit) : M S A :=
  fun s => match body s with
           | (r, s1) => match final s1 with
                        | (Ok _, s2) => (r, s2)
                        | (Raise e, s2) => (Raise e, s2)
                        end
           end.

(** Python floats: the finite binary64 values (as rationals), the two
    infinities and NaN.  The sign of zero is not tracked. *)
Inductive pyfloat : Type :=
| Finite (q : Q)
| Infinity (negative : bool)
| NaN.

Inductive value : Type :=
| VNone
| VInt (z : Z)
| VFloat (f : pyfloat)
| VStr (s : string).

(** A [Dict] with string keys. *)
Abbreviation dict := (gmap string value).

(** [d[key]] *)
Definition getitem (d : dict) (key : string) : result value :=
  match d !! key with
  | Some v => Ok v
  | None => Raise KeyError
  end.

(** Truth value of a dict: [len(d) != 0]. *)
Definition dict_truthy (d : dict) : bool := negb (Nat.eqb (size d) 0).

End Py.

Import Py.

Declare Scope result_scope.
Delimit Scope result_scope with R.
Declare Scope M_scope.
Delimit Scope M_scope with M.

Notation "x <- c ;; k" := (rbind c (fun x => k))
  (at level 100, c at next level, right associativity) : result_scope.
Notation "x <- c ;; k" := (bind c (fun x => k))
  (at level 100, c at next level, right associativity) : M_scope.
Notation "c ;; k" := (bind c (fun _ => k))
  (at level 100, right associativity) : M_scope.

(** ** IEEE-754 binary64 arithmetic on exact rationals *)

Module Binary64.

Local Open Scope Z_scope.

(** Exponent of the least positive (subnormal) number and bound of the
    exponent range: finite values are below [2 ^ emax] in magnitude. *)
Definition emin : Z := -1074.
Definition emax : Z := 1024.

(** The integer nearest to [a / b] (for [0 <= a], [0 < b]), ties to even. *)
Definition round_half_even (a b : Z) : Z :=
  let k := a / b in
  match 2 * (a mod b) ?= b with
  | Lt => k
  | Gt => k + 1
  | Eq => if Z.even k then k else k + 1
  end.

(** [floor (log2 (n / d))] for positive [n] and [d]. *)
Definition ilog2 (n d : Z) : Z :=
  let l := Z.log2 n - Z.log2 d in
  if n * 2 ^ Z.max 0 (- l) <? d * 2 ^ Z.max 0 l then l - 1 else l.

(** Rounding of the positive rational [n / d]: with [e] the exponent of the
    unit in the last place (53 significant bits, or [emin] in the subnormal
    range), the result is [m * 2 ^ e] for the integer [m] nearest to
    [(n / d) / 2 ^ e]. *)
Definition round_pos (n d : Z) : Q :=
  let e := Z.max (ilog2 n d - 52) emin in
  let m := round_half_even (n * 2 ^ Z.max 0 (- e)) (d * 2 ^ Z.max 0 e) in
  Qred (Qmake (m * 2 ^ Z.max 0 e) (Z.to_pos (2 ^ Z.max 0 (- e)))).

(** Round to nearest, ties to even, with the exponent unbounded above. *)
Definition round (q : Q) : Q :=
  match Qnum q with
  | Z0 => 0%Q
  | Zpos n => round_pos (Zpos n) (Zpos (Qden q))
  | Zneg n => Qopp (round_pos (Zpos n) (Zpos (Qden q)))
  end.

(** A rounded value that leaves the finite range. *)
Definition overflows (q : Q) : bool :=
  Qle_bool (inject_Z (2 ^ emax)) (Qabs q).

(** The integer nearest to a rational, ties to even. *)
Definition rint (q : Q) : Z :=
  match Qnum q with
  | Z0 => 0
  | Zpos n => round_half_even (Zpos n) (Zpos (Qden q))
  | Zneg n => - round_half_even (Zpos n) (Zpos (Qden q))
  end.

End Binary64.

(** ** Python's numeric operations used by the grade *)

Module PyNum.

(** [a / b] on [int]s: the correctly rounded quotient; [ZeroDivisionError]
    for a zero divisor, [OverflowError] when the quotient is too large for a
    float. *)
Definition int_truediv (a b : Z) : result pyfloat :=
  if (b =? 0)%Z then Raise ZeroDivisionError
  else
    let q := Binary64.round (Qmake (a * Z.sgn b) (Z.to_pos (Z.abs b))) in
    if Binary64.overflows q then Raise OverflowError else Ok (Finite q).

(** Sign of a float, [None] for zero and NaN. *)
Definition float_sign (x : pyfloat) : option bool :=
  match x with
  | Finite q => match Qnum q with
                | Z0 => None
                | Zpos _ => Some false
                | Zneg _ => Some true
                end
  | Infinity s => Some s
  | NaN => None
  end.

(** [x * y] on floats. *)
Definition float_mul (x y : pyfloat) : pyfloat :=
  match x, y with
  | NaN, _ | _, NaN => NaN
  | Finite p, Finite q =>
      let r := Binary64.round (Qmult p q) in
      if Binary64.overflows r
      then Infinity (negb (Qle_bool 0%Q r))
      else Finite r
  | _, _ =>
      match float_sign x, float_sign y with
      | Some s, Some t => Infinity (xorb s t)
      | _, _ => NaN
      end
  end.

(** [float(n)] for an [int] of magnitude at most [2 ^ 53], which is exact. *)
Definition float_of_small_int (n : Z) : pyfloat := Finite (inject_Z n).

(** [round(x, 2)] on a float: the exact value of [x] is rounded to the nearest
    multiple of [1/100], ties to even, and that decimal is converted back to
    the nearest float. *)
Definition builtin_round2 (x : pyfloat) : result pyfloat :=
  match x with
  | Finite q =>
      let k := Binary64.rint (Qmult q (inject_Z 100)) in
      let r := Binary64.round (Qmake k 100) in
      if Binary64.overflows r then Raise OverflowError else Ok (Finite r)
  | _ => Ok x
  end.

End PyNum.

(** ** Text of a source file *)

Module Text.

Local Open Scope Z_scope.

(** A Python [str]: its code points. *)
Definition text := list Z.

Definition LF : Z := 10.
Definition CR : Z := 13.

(** The code points of an ASCII string literal. *)
Definition of_string (s : string) : text :=
  map (fun a => Z.of_N (Ascii.N_of_ascii a)) (String.list_ascii_of_string s).

(** [str.isspace] on one code point: the characters [str.strip()] removes. *)
Definition isspace (c : Z) : bool :=
  ((9 <=? c) && (c <=? 13)) || ((28 <=? c) && (c <=? 32))
  || (c =? 133) || (c =? 160) || (c =? 5760)
  || ((8192 <=? c) && (c <=? 8202))
  || (c =? 8232) || (c =? 8233) || (c =? 8239) || (c =? 8287) || (c =? 12288).

Fixpoint lstrip (s : text) : text :=
  match s with
  | [] => []
  | c :: s' => if isspace c then lstrip s' else s
  end.

Definition rstrip (s : text) : text := rev (lstrip (rev s)).

(** [s.strip()] *)
Definition strip (s : text) : text := rstrip (lstrip s).

(** Truth value of a [str]: it is not empty. *)
Definition str_truthy (s : text) : bool :=
  match s with
  | [] => false
  | _ :: _ => true
  end.

(** Universal newlines of a file opened in text mode with the default
    [newline=None]: each of [\r\n], [\r] and [\n] is read as [\n]. *)
Fixpoint translate_newlines (s : text) : text :=
  match s with
  | [] => []
  | c :: s' =>
      if c =? CR then
        LF :: match s' with
              | c' :: s'' =>
                  if c' =? LF then translate_newlines s''
                  else translate_newlines s'
              | [] => []
              end
      else c :: translate_newlines s'
  end.

(** Lines, each with its terminating [\n] when it has one. *)
Fixpoint split_keepends (s : text) : list text :=
  match s with
  | [] => []
  | c :: s' =>
      if c =? LF then [LF] :: split_keepends s'
      else match split_keepends s' with
           | [] => [[c]]
           | l :: ls => (c :: l) :: ls
           end
  end.

(** The lines produced by iterating over a text-mode file object. *)
Definition file_lines (content : text) : list text :=
  split_keepends (translate_newlines content).

End Text.

Import Text.

(** ** Syntax trees of the [ast] module *)

Module Ast.

(** A node: its class name, its [lineno] attribute when the class has one
    (statements, expressions, handlers, arguments; not [Module], operators,
    expression contexts, [arguments], [comprehension], ...), and its child
    nodes in the order of [ast.iter_child_nodes]. *)
Inductive ast : Type :=
| Node (cls : string) (lineno : option Z) (children : list ast).

Definition cls (n : ast) : string := match n with Node c _ _ => c end.
Definition lineno (n : ast) : option Z := match n with Node _ l _ => l end.
Definition children (n : ast) : list ast := match n with Node _ _ cs => cs end.

Fixpoint ast_size (n : ast) : nat :=
  match n with
  | Node _ _ cs => S (list_sum (map ast_size cs))
  end.

Definition forest_size (todo : list ast) : nat := list_sum (map ast_size todo).

(** The loop of [ast.walk]: pop the leftmost node of the queue, append its
    children on the right, yield the node. *)
Equations? walk_queue (todo : list ast) : list ast
  by wf (forest_size todo) lt :=
walk_queue [] := [];
walk_queue (Node c l cs :: rest) := Node c l cs :: walk_queue (rest ++ cs).
Proof.
  unfold forest_size. rewrite map_app, list_sum_app. simpl. lia.
Qed.

(** [ast.walk(node)] *)
Definition walk (node : ast) : list ast := walk_queue [node].

End Ast.

Import Ast.

(** ** The scratch area of the file system and the outside world *)

Module Env.

(** A regular entry below a repository root: a file that can be read, with
    its contents already decoded ([errors="ignore"] drops what does not
    decode, so decoding never fails), or an entry whose [open] or [read]
    fails with an [OSError] (no permission, a directory, ...). *)
Inductive file : Type :=
| Readable (content : text)
| Unreadable.

(** The contents of a directory tree: relative path of each entry. *)
Abbreviation tree := (gmap string file).

(** Scratch directories are the directories made by [tempfile.mkdtemp]; a
    directory [repo_<n>] is named by [n]. *)
Definition scratch_dir := nat.

(** The scratch area: the existing scratch directories and their trees. *)
Abbreviation filesystem := (gmap nat (gmap string file)).

(** A [Path] to an entry below a scratch directory. *)
Definition file_path : Type := scratch_dir * string.

Record World : Type := {
  (** outcome of [git clone --depth 1 <url> <dir>] run with [check=True] and
      a timeout of 300 seconds: the tree checked out, or the exception
      [subprocess.run] raises ([CalledProcessError], [TimeoutExpired],
      [OSError] when there is no [git], [TypeError] for an argument that is
      not a string) *)
  git_clone : value -> result tree;
  (** [ast.parse(content)]: the module's tree, or the exception raised *)
  ast_parse : text -> result ast;
  (** whether [shutil.rmtree(dir, ignore_errors=True)] deletes [dir]; it never
      raises *)
  rmtree_removes : scratch_dir -> bool;
  (** outcome of [Config.ensure_directories()] *)
  ensure_directories : result unit;
}.

(** [with open(file_path, "r", encoding="utf-8", errors="ignore") as f:
       f.read()] *)
Definition open_read (fs : filesystem) (p : file_path) : result text :=
  match fs !! p.1 ≫= (fun t => t !! p.2) with
  | Some (Readable content) => Ok content
  | Some Unreadable => Raise OSError
  | None => Raise OSError
  end.

(** [name.endswith(".py")], the test of the glob pattern [*.py]. *)
Definition matches_py (name : string) : bool :=
  (3 <=? String.length name)%nat
  && String.eqb (String.substring (String.length name - 3) 3 name) ".py".

(** [repo_dir.rglob("*.py")]: the entries below [repo_dir] whose name ends
    in [.py]; nothing for a directory that does not exist. *)
Definition rglob_py (fs : filesystem) (repo_dir : scratch_dir) : list file_path :=
  match fs !! repo_dir with
  | Some t => map (pair repo_dir) (filter (fun n => Is_true (matches_py n)) (elements (dom t)))
  | None => []
  end.

End Env.

Import Env.

(** ** [code_analyzer.py] *)

Module CodeAnalyzer.

Local Open Scope Z_scope.

(** The analysis dictionary, whose four keys are fixed. *)
Record analysis : Type := {
  total_lines : Z;
  lines_within_limit : Z;
  files_over_limit : Z;
  total_files : Z;
}.

Definition find_python_files (fs : filesystem) (repo_dir : scratch_dir)
  : list file_path :=
  rglob_py fs repo_dir.

(** [sum(1 for line in f if line.strip())] inside [try], and [return 0] for
    any exception. *)
Definition _count_lines_simple (fs : filesystem) (p : file_path) : result Z :=
  try_except
    (content <- open_read fs p ;;
     Ok (fold_left
           (fun acc line => if str_truthy (strip line) then acc + 1 else acc)
           (file_lines content) 0))%R
    (fun _ => Some (Ok 0)).

(** The set built by the loop over [ast.walk(tree)]. *)
Definition code_lines (tree : ast) : gset Z :=
  fold_left
    (fun acc node => match lineno node with
                     | Some l => acc ∪ {[ l ]}
                     | None => acc
                     end)
    (walk tree) ∅.

Definition count_code_lines (w : World) (fs : filesystem) (p : file_path)
  : result Z :=
  try_except
    (content <- open_read fs p ;;
     tree <- ast_parse w content ;;
     Ok (Z.of_nat (size (code_lines tree))))%R
    (fun e => match e with
              | SyntaxError | UnicodeDecodeError =>
                  Some (_count_lines_simple fs p)
              | _ => None
              end).

(** The three counters updated by the loop of [analyze_repository]. *)
Definition counters : Type := Z * Z * Z.

Definition analyze_step (w : World) (fs : filesystem)
  (acc : result counters) (py_file : file_path) : result counters :=
  (cs <- acc ;;
   let '(total_lines, lines_within_limit, files_over_limit) := cs in
   line_count <- count_code_lines w fs py_file ;;
   let total_lines := total_lines + line_count in
   if line_count <=? 150
   then Ok (total_lines, lines_within_limit + line_count, files_over_limit)
   else Ok (total_lines, lines_within_limit, files_over_limit + 1))%R.

Definition analyze_repository (w : World) (fs : filesystem)
  (repo_dir : scratch_dir) : result analysis :=
  let python_files := find_python_files fs repo_dir in
  (cs <- fold_left (analyze_step w fs) python_files (Ok (0, 0, 0)) ;;
   let '(total_lines, lines_within_limit, files_over_limit) := cs in
   Ok {| total_lines := total_lines;
         lines_within_limit := lines_within_limit;
         files_over_limit := files_over_limit;
         total_files := Z.of_nat (length python_files) |})%R.

Definition calculate_grade (a : analysis) : result pyfloat :=
  if total_lines a =? 0 then Ok (Finite 0%Q)
  else
    (ratio <- PyNum.int_truediv (lines_within_limit a) (total_lines a) ;;
     PyNum.builtin_round2 (PyNum.float_mul ratio (PyNum.float_of_small_int 100)))%R.

End CodeAnalyzer.

(** ** [git_client.py] *)

Module GitClient.

Local Open Scope M_scope.

(** [tempfile.mkdtemp(prefix="repo_")]: makes an empty directory under a name
    that is not in use. *)
Definition mkdtemp : M filesystem scratch_dir :=
  fun fs => let d := fresh (dom fs) in (Ok d, <[d := ∅]> fs).

(** [target_dir.mkdir(parents=True, exist_ok=True)] *)
Definition mkdir_exist_ok (target_dir : scratch_dir) : M filesystem unit :=
  modify (fun fs => match fs !! target_dir with
                    | Some _ => fs
                    | None => <[target_dir := ∅]> fs
                    end).

(** [subprocess.run(["git", "clone", "--depth", "1", repo_url,
    str(target_dir)], check=True, capture_output=True, text=True,
    timeout=300)].  [git] refuses a target that is not empty; on failure the
    target directory itself stays. *)
Definition run_git_clone (w : World) (repo_url : value)
  (target_dir : scratch_dir) : M filesystem unit :=
  fun fs =>
    match fs !! target_dir with
    | Some t =>
        if bool_decide (dom t = ∅) then
          match git_clone w repo_url with
          | Ok checked_out => (Ok tt, <[target_dir := checked_out]> fs)
          | Raise e => (Raise e, fs)
          end
        else (Raise CalledProcessError, fs)
    | None => (Raise CalledProcessError, fs)
    end.

Definition clone_repo (w : World) (repo_url : value)
  (target_dir : option scratch_dir) : M filesystem scratch_dir :=
  target_dir <- match target_dir with
                | None => mkdtemp
                | Some d => ret d
                end ;;
  mkdir_exist_ok target_dir ;;
  run_git_clone w repo_url target_dir ;;
  ret target_dir.

(** [if repo_dir.exists(): shutil.rmtree(repo_dir, ignore_errors=True)] *)
Definition cleanup_repo (w : World) (repo_dir : scratch_dir)
  : M filesystem unit :=
  exists_ <- gets (fun fs => bool_decide (is_Some (fs !! repo_dir))) ;;
  if exists_ : bool
  then modify (fun fs => if rmtree_removes w repo_dir
                         then delete repo_dir fs
                         else fs)
  else ret tt.

End GitClient.

(** ** [worker.py] *)

Module RepoWorker.

Local Open Scope M_scope.

(** What a call of [process] works on: the scratch area and its local
    variable [repo_dir], which is [None] until [clone_repo] has returned. *)
Record frame : Type := {
  fs : filesystem;
  repo_dir : option scratch_dir;
}.

Definition on_fs {A} (c : M filesystem A) : M frame A :=
  fun fr => match c (fs fr) with
            | (r, fs') => (r, {| fs := fs'; repo_dir := repo_dir fr |})
            end.

Definition read_fs {A} (f : filesystem -> result A) : M frame A :=
  fun fr => (f (fs fr), fr).

Definition assign_repo_dir (d : scratch_dir) : M frame unit :=
  modify (fun fr => {| fs := fs fr; repo_dir := Some d |}).

(** Runs a body with [repo_dir = None] at its start. *)
Definition with_frame {A} (c : M frame A) : M filesystem A :=
  fun fs0 => match c {| fs := fs0; repo_dir := None |} with
             | (r, fr) => (r, fs fr)
             end.

Definition ready_result (repo_id : value) (grade : pyfloat) : dict :=
  {[ "ID" := repo_id; "grade" := VFloat grade; "Status" := VStr "ready" ]}.

Definition error_result (repo_id : value) : dict :=
  {[ "ID" := repo_id; "grade" := VFloat (Finite 0%Q); "Status" := VStr "error" ]}.

Definition process (w : World) (record : dict) : M filesystem dict :=
  repo_id <- lift (getitem record "ID") ;;
  repo_url <- lift (getitem record "Repo") ;;
  with_frame
    (try_finally
       (try_except_M
          (d <- on_fs (GitClient.clone_repo w repo_url None) ;;
           assign_repo_dir d ;;
           analysis <- read_fs (fun fs => CodeAnalyzer.analyze_repository w fs d) ;;
           grade <- lift (CodeAnalyzer.calculate_grade analysis) ;;
           ret (ready_result repo_id grade))
          (fun _ => Some (ret (error_result repo_id))))
       (local <- gets repo_dir ;;
        match local with
        | Some d => on_fs (GitClient.cleanup_repo w d)
        | None => ret tt
        end)).

End RepoWorker.

(** ** [runner.py] *)

Module Agent2.

Local Open Scope M_scope.

(** A completed [Future]: what [future.result()] returns or raises. *)
Definition future : Type := result dict.

(** [executor.submit(worker.process, repo)].  The pool's workers run
    concurrently on scratch directories of their own; here each call runs to
    its end when it is submitted, which is the schedule of a pool of one
    worker. *)
Definition submit (call : M filesystem dict) : M filesystem future :=
  fun fs => match call fs with
            | (r, fs') => (Ok r, fs')
            end.

(** The submission loop; [futures] keeps each future with the ID recorded for
    it, in insertion order. *)
Fixpoint submit_all (w : World) (repos : list dict)
  : M filesystem (list (future * value)) :=
  match repos with
  | [] => ret []
  | repo :: rest =>
      fut <- submit (RepoWorker.process w repo) ;;
      repo_id <- lift (getitem repo "ID") ;;
      futures <- submit_all w rest ;;
      ret ((fut, repo_id) :: futures)
  end.

(** The body of the collection loop. *)
Definition collect (results : list dict) (entry : future * value) : list dict :=
  match entry with
  | (Ok result, _) =>
      if dict_truthy result then results ++ [result] else results
  | (Raise _, repo_id) => results ++ [RepoWorker.error_result repo_id]
  end.

(** [as_completed] is the order in which [concurrent.futures.as_completed]
    yields the submitted futures. *)
Definition _process_parallel (w : World)
  (as_completed : list (future * value) -> list (future * value))
  (repos : list dict) : M filesystem (list dict) :=
  lift (ensure_directories w) ;;
  futures <- submit_all w repos ;;
  ret (fold_left collect (as_completed futures) []).

End Agent2.

(** ** Notions of the specification *)

Module Spec.

Local Open Scope Z_scope.

(** All nodes of a tree, the node first and then those of its children. *)
Fixpoint nodes (n : ast) : list ast :=
  match n with
  | Node _ _ cs => n :: flat_map nodes cs
  end.

(** The line numbers on which some node of the tree starts. *)
Definition start_lines (tree : ast) : gset Z :=
  list_to_set (omap lineno (nodes tree)).

(** The number of lines whose trimmed content is not empty. *)
Definition nonblank_line_count (content : text) : Z :=
  Z.of_nat (length (filter (fun line => strip line <> []) (file_lines content))).

(** The fixed limit on the code lines of a file. *)
Definition limit : Z := 150.

Definition sum (counts : list Z) : Z := foldr Z.add 0 counts.

(** The metrics the specification assigns to the per-file counts of a
    repository. *)
Definition metrics_of (counts : list Z) : CodeAnalyzer.analysis :=
  {| CodeAnalyzer.total_lines := sum counts;
     CodeAnalyzer.lines_within_limit :=
       sum (filter (fun c => c <= limit) counts);
     CodeAnalyzer.files_over_limit :=
       Z.of_nat (length (filter (fun c => limit < c) counts));
     CodeAnalyzer.total_files := Z.of_nat (length counts) |}.

(** Rounding to binary64, and the float nearest to the two-decimal rounding
    of a rational. *)
Definition fl (x : Q) : Q := Binary64.round x.

Definition round2 (x : Q) : Q :=
  fl (Qmake (Binary64.rint (Qmult x (inject_Z 100))) 100).

(** The analysis of a tree, wherever it is checked out. *)
Definition analyze_tree (w : World) (t : tree) : result CodeAnalyzer.analysis :=
  CodeAnalyzer.analyze_repository w {[ 0%nat := t ]} 0%nat.

(** The terminal result of a job, as a function of the job alone: the outcome
    of the checkout of its URL and of the analysis of what was checked
    out. *)
Definition job_result (w : World) (repo_id repo_url : value) : dict :=
  match git_clone w repo_url with
  | Raise _ => RepoWorker.error_result repo_id
  | Ok t =>
      match (a <- analyze_tree w t ;; CodeAnalyzer.calculate_grade a)%R with
      | Ok grade => RepoWorker.ready_result repo_id grade
      | Raise _ => RepoWorker.error_result repo_id
      end
  end.

(** Some step of the job's pipeline raises: the checkout (an error or the
    timeout), the analysis, or the computation of the grade. *)
Definition pipeline_fails (w : World) (repo_url : value) : Prop :=
  match git_clone w repo_url with
  | Raise _ => True
  | Ok t =>
      match (a <- analyze_tree w t ;; CodeAnalyzer.calculate_grade a)%R with
      | Ok _ => False
      | Raise _ => True
      end
  end.

(** What a call of the worker returns or raises, whatever the scratch area
    holds when it starts. *)
Definition worker_outcome (w : World) (record : dict) : result dict :=
  (repo_id <- getitem record "ID" ;;
   repo_url <- getitem record "Repo" ;;
   Ok (job_result w repo_id repo_url))%R.

(** The result the pool records for a submitted job. *)
Definition terminal (w : World) (repo : dict) : dict :=
  match repo !! "ID" with
  | Some repo_id =>
      match repo !! "Repo" with
      | Some repo_url => job_result w repo_id repo_url
      | None => RepoWorker.error_result repo_id
      end
  | None => ∅
  end.

(** What the collection loop of the pool records for a completed future. *)
Definition recorded (entry : Agent2.future * value) : dict :=
  match entry with
  | (Ok result, _) => result
  | (Raise _, repo_id) => RepoWorker.error_result repo_id
  end.

(** A submitted job whose record has an ID: its future carries the worker's
    outcome and the ID recorded for it. *)
Definition submitted (w : World) (repo : dict)
  (entry : Agent2.future * value) : Prop :=
  entry.1 = worker_outcome w repo /\ repo !! "ID" = Some entry.2.

End Spec.

(** ** Concrete worlds and jobs *)

Module Examples.

Local Open Scope Z_scope.

(** The one-line file [QQQdocQQQ], where [Q] is the double quote (code
    point 34): a module that consists of its documentation string. *)
Definition docstring_text : text :=
  [34; 34; 34] ++ of_string "doc" ++ [34; 34; 34; LF].

(** What [ast.parse] returns for it: [Module(body=[Expr(value=Constant(
    value='doc'))])], with the statement and its string at line 1. *)
Definition docstring_module : ast :=
  Node "Module" None [Node "Expr" (Some 1) [Node "Constant" (Some 1) []]].

(** A file of [n] lines, each the statement [pass]. *)
Definition pass_text (n : nat) : text :=
  concat (replicate n (of_string "pass" ++ [LF])).

(** What [ast.parse] returns for it: [Module(body=[Pass(), ..., Pass()])],
    the [i]-th statement at line [i]. *)
Definition pass_module (n : nat) : ast :=
  Node "Module" None
    (map (fun i => Node "Pass" (Some (Z.of_nat i)) []) (seq 1 n)).

(** A file the parser rejects: an open parenthesis, an empty line, a line
    of one space, and a last line without its newline. *)
Definition malformed_text : text :=
  of_string "x = (" ++ [LF; LF; 32; LF] ++ of_string "y".

(** The parser on the texts above; every other text counts as malformed. *)
Definition parse (content : text) : result ast :=
  if bool_decide (content = docstring_text) then Ok docstring_module
  else
    let n := (length content / 5)%nat in
    if bool_decide (content = pass_text n) then Ok (pass_module n)
    else Raise SyntaxError.

Definition two_files : tree :=
  {[ "short.py" := Readable (pass_text 100);
     "pkg/long.py" := Readable (pass_text 200);
     "README.md" := Readable (of_string "notes") ]}.

Definition boundary_files : tree :=
  {[ "at_limit.py" := Readable (pass_text 150);
     "over_limit.py" := Readable (pass_text 151) ]}.

Definition docstring_only : tree :=
  {[ "mod.py" := Readable docstring_text ]}.

Definition malformed_file : tree :=
  {[ "bad.py" := Readable malformed_text ]}.

Definition unreadable_file : tree :=
  {[ "secret.py" := Unreadable ]}.

(** The remote side: which URL yields which checkout, which fails and which
    runs into the timeout. *)
Definition remote (repo_url : value) : result tree :=
  match repo_url with
  | VStr url =>
      if String.eqb url "https://example.org/two.git" then Ok two_files
      else if String.eqb url "https://example.org/boundary.git" then Ok boundary_files
      else if String.eqb url "https://example.org/doc.git" then Ok docstring_only
      else if String.eqb url "https://example.org/malformed.git" then Ok malformed_file
      else if String.eqb url "https://example.org/unreadable.git" then Ok unreadable_file
      else if String.eqb url "https://example.org/slow.git" then Raise TimeoutExpired
      else Raise CalledProcessError
  | _ => Raise TypeError
  end.

Definition world : World :=
  {| git_clone := remote;
     ast_parse := parse;
     rmtree_removes := fun _ => true;
     ensure_directories := Ok tt |}.

Definition job (repo_id : Z) (repo_url : string) : dict :=
  {[ "ID" := VInt repo_id; "Repo" := VStr repo_url ]}.

Definition job_two : dict := job 1 "https://example.org/two.git".
Definition job_missing : dict := job 2 "https://example.org/missing.git".
Definition job_slow : dict := job 3 "https://example.org/slow.git".
Definition job_unreadable : dict := job 4 "https://example.org/unreadable.git".

(** A scratch area that holds one checkout. *)
Definition checked_out (t : tree) : filesystem := {[ 0%nat := t ]}.

End Examples.

(** ** [common/status.py] *)

Module Status.

Inductive t : Set :=
| PENDING
| READY
| ERROR
| COMPLETED.

(** [str(status)]: [__str__] returns the value of the member. *)
Definition str (s : t) : string :=
  match s with
  | PENDING => "pending"
  | READY => "ready"
  | ERROR => "error"
  | COMPLETED => "completed"
  end.

End Status.

(** ** Tables of [pandas] and the files of the data directory *)

Module Pandas.

(** A [DataFrame]: its column labels and its rows, each row a dict from column
    label to cell.  The order of the columns is not tracked. *)
Record DataFrame : Type := {
  columns : gset string;
  rows : list dict;
}.


(** [pd.DataFrame()] *)
Definition empty_frame : DataFrame := {| columns := ∅; rows := [] |}.

(** [df.empty]: one of the two axes has length 0. *)
Definition empty (df : DataFrame) : bool :=
  Nat.eqb (length (rows df)) 0 || Nat.eqb (size (columns df)) 0.

(** [cell == s] for a string [s]; a cell that is not a string differs. *)
Definition cell_is (s : string) (cell : option value) : bool :=
  match cell with
  | Some (VStr s') => String.eqb s' s
  | _ => false
  end.

(** [df[df[column] == s]] *)
Definition where_eq (df : DataFrame) (column s : string) : DataFrame :=
  {| columns := columns df;
     rows := filter (fun row : dict => Is_true (cell_is s (row !! column)))
               (rows df) |}.

(** [df[cols].to_dict("records")]: [KeyError] when a label of [cols] is not
    a column. *)
Definition records_of (df : DataFrame) (cols : list string)
  : result (list dict) :=
  if forallb (fun c => bool_decide (c ∈ columns df)) cols
  then Ok (map (fun row : dict =>
                  filter (fun kv : string * value => kv.1 ∈ cols) row)
             (rows df))
  else Raise KeyError.

(** [pd.DataFrame(records)] for a list of dicts: the columns are the keys that
    occur, and a cell a record has no key for is NaN. *)
Definition of_records (records : list dict) : DataFrame :=
  let cols : gset string := ⋃ (dom <$> records) in
  {| columns := cols;
     rows := map (fun r : dict => r ∪ gset_to_gmap (VFloat NaN) cols) records |}.

(** A file of the data directory: a workbook that holds a table, or a file
    that is no workbook (such as the empty file a temporary file starts as). *)
Inductive content : Type :=
| Workbook (df : DataFrame)
| Other.

Abbreviation data_files := (gmap string content).

(** What the spreadsheet layer and the file system do that the program does
    not decide: whether writing a table fails, whether a rename fails, and
    the exception raised on reading a file that is no workbook. *)
Record Office : Type := {
  to_excel_raises : DataFrame -> option exn;
  replace_raises : string -> string -> option exn;
  not_a_workbook : exn;
}.

(** [df] restricted to the columns [cols]. *)
Definition restrict (df : DataFrame) (cols : list string) : DataFrame :=
  {| columns := list_to_set cols;
     rows := map (fun row : dict =>
                    filter (fun kv : string * value => kv.1 ∈ cols) row)
               (rows df) |}.

(** [pd.read_excel(file_path, engine="openpyxl", usecols=columns)]: with
    [usecols=None] the whole table; with a list of labels the table
    restricted to them, and [ValueError] when one of them is not a column of
    the workbook. *)
Definition read_excel (o : Office) (files : data_files) (file_path : string)
  (usecols : option (list string)) : result DataFrame :=
  match files !! file_path with
  | Some (Workbook df) =>
      match usecols with
      | None => Ok df
      | Some cols =>
          if forallb (fun c => bool_decide (c ∈ columns df)) cols
          then Ok (restrict df cols)
          else Raise ValueError
      end
  | Some Other => Raise (not_a_workbook o)
  | None => Raise OSError
  end.

(** [df.to_excel(path, engine="openpyxl", index=False)] *)
Definition to_excel (o : Office) (df : DataFrame) (path : string)
  : M data_files unit :=
  match to_excel_raises o df with
  | Some e => raise e
  | None => modify (fun files => <[path := Workbook df]> files)
  end.

(** [tempfile.NamedTemporaryFile(mode="wb", suffix=".xlsx", dir=...,
    delete=False)] left at once: an empty file under a name not in use. *)
Definition named_temporary_file : M data_files string :=
  fun files => let name := fresh (dom files) in
               (Ok name, <[name := Other]> files).

(** [source.replace(target)]: the rename takes the place of the target;
    [OSError] when there is no source. *)
Definition replace (o : Office) (source target : string) : M data_files unit :=
  fun files =>
    match replace_raises o source target with
    | Some e => (Raise e, files)
    | None =>
        match files !! source with
        | Some c => (Ok tt, <[target := c]> (delete source files))
        | None => (Raise OSError, files)
        end
    end.

(** [path.unlink()] on a file that exists. *)
Definition unlink (path : string) : M data_files unit :=
  modify (fun files => delete path files).

End Pandas.

Import Pandas.

(** ** [common/excel_handler.py] *)

Module ExcelHandler.

Local Open Scope M_scope.

Definition read_with_status (o : Office) (files : data_files)
  (file_path : string) (status : Status.t) (columns : option (list string))
  : result DataFrame :=
  if bool_decide (is_Some (files !! file_path)) then
    (df <- read_excel o files file_path columns ;;
     if bool_decide ("Status" ∈ Pandas.columns df)
     then Ok (where_eq df "Status" (Status.str status))
     else Ok df)%R
  else Ok empty_frame.

(** The parent directory made by [mkdir(parents=True, exist_ok=True)] is not
    tracked: the data directory is a flat collection of files. *)
Definition atomic_write (o : Office) (df : DataFrame) (file_path : string)
  : M data_files unit :=
  temp_path <- named_temporary_file ;;
  try_except_M
    (to_excel o df temp_path ;;
     replace o temp_path file_path)
    (fun e =>
       Some (exists_ <- gets (fun files : data_files =>
                                bool_decide (is_Some (files !! temp_path))) ;;
             (if exists_ : bool then unlink temp_path else ret tt) ;;
             raise e)).

End ExcelHandler.

(** ** [runner.py]: [Agent2.run] and [Agent2._save_results] *)

Module Runner.

Local Open Scope M_scope.

(** The fields of [Config] the agent reads. *)
Record Config : Type := {
  excel_agent1 : string;
  excel_agent2 : string;
}.

(** What the agent works on: the scratch area and the data directory. *)
Record disk : Type := {
  scratch : filesystem;
  files : data_files;
}.

Definition on_scratch {A} (c : M filesystem A) : M disk A :=
  fun d => match c (scratch d) with
           | (r, fs') => (r, {| scratch := fs'; files := files d |})
           end.

Definition on_files {A} (c : M data_files A) : M disk A :=
  fun d => match c (files d) with
           | (r, files') => (r, {| scratch := scratch d; files := files' |})
           end.

Definition read_files {A} (f : data_files -> result A) : M disk A :=
  fun d => (f (files d), d).

Definition _save_results (o : Office) (config : Config) (results : list dict)
  : M data_files unit :=
  match results with
  | [] => ret tt
  | _ :: _ => ExcelHandler.atomic_write o (of_records results) (excel_agent2 config)
  end.

Definition run (w : World) (o : Office) (config : Config)
  (as_completed : list (Agent2.future * value) -> list (Agent2.future * value))
  : M disk unit :=
  try_except_M
    (df_input <- read_files (fun files =>
                   ExcelHandler.read_with_status o files
                     (excel_agent1 config) Status.READY None) ;;
     if empty df_input then ret tt
     else
       repos <- lift (records_of df_input ["ID"; "Repo"]) ;;
       results <- on_scratch (Agent2._process_parallel w as_completed repos) ;;
       on_files (_save_results o config results))
    (fun e => Some (raise e)).

End Runner.

(** ** [orchestrator/pipeline.py] *)

Module Pipeline.

Local Open Scope M_scope.

Section Agents.

Context {S : Type}.

(** The pipeline built by [__init__]: the [run] methods of its four agents. *)
Record Pipeline : Type := {
  agent1 : M S unit;
  agent2 : M S unit;
  agent3 : M S unit;
  agent4 : M S unit;
}.

(** [self.agents] *)
Definition agents (p : Pipeline) : list (M S unit) :=
  [agent1 p; agent2 p; agent3 p; agent4 p].

(** [try: agent.run() / except Exception: (log) raise] *)
Definition run_agent (agent : M S unit) : M S unit :=
  try_except_M agent (fun e => Some (raise e)).

Fixpoint run_each (l : list (M S unit)) : M S unit :=
  match l with
  | [] => ret tt
  | agent :: rest => run_agent agent ;; run_each rest
  end.

Definition run_all (p : Pipeline) : M S unit := run_each (agents p).

(** [self.agents[num - 1]] for [1 <= num <= 4]. *)
Definition agent_at (p : Pipeline) (num : Z) : M S unit :=
  nth (Z.to_nat (num - 1)) (agents p) (ret tt).

Fixpoint run_agents (p : Pipeline) (agent_numbers : list Z) : M S unit :=
  match agent_numbers with
  | [] => ret tt
  | num :: rest =>
      (if ((1 <=? num) && (num <=? 4))%Z
       then run_agent (agent_at p num)
       else ret tt) ;;
      run_agents p rest
  end.

End Agents.

Arguments Pipeline S : clear implicits.

End Pipeline.

(** ** Concrete tables and data directories *)

Module RunExamples.

Definition office : Office :=
  {| to_excel_raises := fun _ => None;
     replace_raises := fun _ _ => None;
     not_a_workbook := ValueError |}.

Definition config : Runner.Config :=
  {| Runner.excel_agent1 := "data/ExcelBK_byAgent1.xlsx";
     Runner.excel_agent2 := "data/Grade_byAgent2.xlsx" |}.

Definition submission (repo_id : Z) (repo_url status : string) : dict :=
  {[ "ID" := VInt repo_id; "Repo" := VStr repo_url; "Status" := VStr status ]}.

(** Two ready submissions and a pending one. *)
Definition submissions : DataFrame :=
  {| columns := {[ "ID"; "Repo"; "Status" ]};
     rows := [submission 1 "https://example.org/two.git" "ready";
              submission 2 "https://example.org/missing.git" "ready";
              submission 3 "https://example.org/boundary.git" "pending"] |}.

(** A table without the column ["ID"]. *)
Definition anonymous : DataFrame :=
  {| columns := {[ "Repo"; "Status" ]};
     rows := [{[ "Repo" := VStr "https://example.org/two.git";
                 "Status" := VStr "ready" ]}] |}.

Definition disk_with (df : DataFrame) : Runner.disk :=
  {| Runner.scratch := ∅;
     Runner.files := {[ Runner.excel_agent1 config := Workbook df ]} |}.

(** A pipeline over a log of the agents that ran; the third agent fails. *)
Definition logging_pipeline : Pipeline.Pipeline (list nat) :=
  {| Pipeline.agent1 := modify (fun log => log ++ [1%nat]);
     Pipeline.agent2 := modify (fun log => log ++ [2%nat]);
     Pipeline.agent3 := raise ValueError;
     Pipeline.agent4 := modify (fun log => log ++ [4%nat]) |}.

End RunExamples.

(** ** A source file the handler of the counter does not cover *)

Module FailureExamples.

Local Open Scope Z_scope.

(** The line [x = 1] followed by a NUL character. *)
Definition nul_text : text := of_string "x = 1" ++ [0; LF].

(** The parser on a source that holds a NUL character: [ValueError] ("source
    code string cannot contain null bytes"); on the other texts as in
    [Examples]. *)
Definition parse (content : text) : result ast :=
  if bool_decide (0 ∈ content) then Raise ValueError
  else Examples.parse content.

Definition with_nul : tree :=
  {[ "nul.py" := Readable nul_text;
     "fine.py" := Readable (Examples.pass_text 2) ]}.

Definition world : World :=
  {| git_clone := fun _ => Ok with_nul;
     ast_parse := parse;
     rmtree_removes := fun _ => true;
     ensure_directories := Ok tt |}.

End FailureExamples.

(** * Properties *)

(** ** The per-file counters *)

Module AnalyzerFacts.

Import CodeAnalyzer.
Local Open Scope Z_scope.

(** [ast.walk] visits the nodes of the tree, each once. *)
Lemma walk_queue_perm (todo : list ast) :
  walk_queue todo ≡ₚ flat_map Spec.nodes todo.
Proof.
  funelim (walk_queue todo).
  - reflexivity.
  - match goal with IH : walk_queue _ ≡ₚ _ |- _ => rewrite IH end.
    rewrite flat_map_app. simpl.
    apply Permutation_cons; [reflexivity |]. apply Permutation_app_comm.
Qed.

Lemma walk_perm (tree : ast) : walk tree ≡ₚ Spec.nodes tree.
Proof.
  unfold walk. rewrite walk_queue_perm. simpl. by rewrite app_nil_r.
Qed.

Lemma code_lines_loop (l : list ast) (acc : gset Z) :
  fold_left
    (fun acc node => match lineno node with
                     | Some l => acc ∪ {[ l ]}
                     | None => acc
                     end) l acc
  = acc ∪ list_to_set (omap lineno l).
Proof.
  revert acc. induction l as [| n l IH]; intros acc; simpl.
  - set_solver.
  - rewrite IH. destruct (lineno n); simpl; set_solver.
Qed.

(** The set built by the loop is the set of lines on which a node starts. *)
Lemma code_lines_start_lines (tree : ast) :
  code_lines tree = Spec.start_lines tree.
Proof.
  unfold code_lines, Spec.start_lines. rewrite code_lines_loop.
  rewrite (walk_perm tree). set_solver.
Qed.

Lemma count_loop (lines : list text) (acc : Z) :
  fold_left (fun acc line => if str_truthy (strip line) then acc + 1 else acc)
    lines acc
  = acc + Z.of_nat (length (filter (fun line => strip line <> []) lines)).
Proof.
  revert acc. induction lines as [| line lines IH]; intros acc; simpl.
  - lia.
  - rewrite IH. destruct (strip line) eqn:Hs; simpl.
    + rewrite filter_cons_False by (rewrite Hs; tauto). lia.
    + rewrite filter_cons_True by (rewrite Hs; discriminate). simpl length. lia.
Qed.

Lemma count_lines_simple_readable fs p content :
  open_read fs p = Ok content ->
  _count_lines_simple fs p = Ok (Spec.nonblank_line_count content).
Proof.
  intros Hr. unfold _count_lines_simple. rewrite Hr. simpl.
  rewrite count_loop. reflexivity.
Qed.

Lemma count_lines_simple_total fs p :
  exists n, _count_lines_simple fs p = Ok n /\ 0 <= n.
Proof.
  unfold _count_lines_simple.
  destruct (open_read fs p) as [content | e]; simpl.
  - rewrite count_loop. eexists. split; [reflexivity | lia].
  - exists 0. split; [reflexivity | lia].
Qed.

Lemma count_code_lines_nonneg w fs p n :
  count_code_lines w fs p = Ok n -> 0 <= n.
Proof.
  unfold count_code_lines.
  destruct (open_read fs p) as [content | e] eqn:Hr; simpl.
  - destruct (ast_parse w content) as [tree | e] eqn:Hp; simpl.
    + intros [= <-]. lia.
    + destruct (count_lines_simple_total fs p) as (m & Hm & Hm0).
      destruct e; simpl; try discriminate; rewrite Hm; intros [= <-]; lia.
  - destruct (count_lines_simple_total fs p) as (m & Hm & Hm0).
    destruct e; simpl; try discriminate; rewrite Hm; intros [= <-]; lia.
Qed.

Ltac counters_eq := f_equal; rewrite !pair_equal_spec; repeat split; lia.

(** One turn of the loop of [analyze_repository]. *)
Lemma analyze_step_ok w fs t l f p c :
  count_code_lines w fs p = Ok c ->
  analyze_step w fs (Ok (t, l, f)) p
  = Ok (t + c, if c <=? 150 then l + c else l, if c <=? 150 then f else f + 1).
Proof.
  intros Hc. unfold analyze_step. simpl. rewrite Hc. simpl.
  destruct (c <=? 150); reflexivity.
Qed.

Lemma analyze_step_raise w fs e p :
  analyze_step w fs (Raise e) p = Raise e.
Proof. reflexivity. Qed.

Lemma analyze_loop_raise w fs e files :
  fold_left (analyze_step w fs) files (Raise e) = Raise e.
Proof. induction files; simpl; auto. Qed.

(** The loop over files whose counts are known. *)
Lemma analyze_loop_counts w fs files counts t l f :
  Forall2 (fun p c => count_code_lines w fs p = Ok c) files counts ->
  fold_left (analyze_step w fs) files (Ok (t, l, f))
  = Ok (t + Spec.sum counts,
        l + Spec.sum (filter (fun c => c <= Spec.limit) counts),
        f + Z.of_nat (length (filter (fun c => Spec.limit < c) counts))).
Proof.
  intros H. revert t l f.
  induction H as [| p c files counts Hc _ IH]; intros t l f; cbn [fold_left].
  - simpl. counters_eq.
  - rewrite (analyze_step_ok _ _ _ _ _ _ _ Hc), IH.
    unfold Spec.limit. destruct (Z.leb_spec c 150).
    + rewrite (filter_cons_True (fun c => c <= 150)) by lia.
      rewrite (filter_cons_False (fun c => 150 < c)) by lia.
      simpl. counters_eq.
    + rewrite (filter_cons_False (fun c => c <= 150)) by lia.
      rewrite (filter_cons_True (fun c => 150 < c)) by lia.
      simpl. counters_eq.
Qed.

(** When the loop ends without an exception every file had a count. *)
Lemma analyze_loop_inv w fs files acc cs :
  fold_left (analyze_step w fs) files acc = Ok cs ->
  exists cs0 counts,
    acc = Ok cs0 /\
    Forall2 (fun p c => count_code_lines w fs p = Ok c) files counts.
Proof.
  revert acc. induction files as [| p files IH]; intros acc; simpl.
  - intros ->. exists cs, []. split; [reflexivity | constructor].
  - intros H. destruct (IH _ H) as (cs1 & counts & Hstep & Hall).
    destruct acc as [[[t l] f] | e]; [| discriminate].
    unfold analyze_step in Hstep. simpl in Hstep.
    destruct (count_code_lines w fs p) as [c | e] eqn:Hc; [| discriminate].
    exists (t, l, f), (c :: counts). split; [reflexivity |].
    constructor; assumption.
Qed.

Lemma sum_nonneg (counts : list Z) :
  Forall (fun c => 0 <= c) counts -> 0 <= Spec.sum counts.
Proof. induction 1; simpl; lia. Qed.

Lemma sum_filter_le (counts : list Z) :
  Forall (fun c => 0 <= c) counts ->
  0 <= Spec.sum (filter (fun c => c <= Spec.limit) counts) <= Spec.sum counts.
Proof.
  induction 1 as [| c counts Hc _ IH]; simpl; [lia |].
  destruct (decide (c <= Spec.limit)).
  - rewrite filter_cons_True by assumption. simpl. lia.
  - rewrite filter_cons_False by assumption. lia.
Qed.

(** What [analyze_repository] returns, in terms of the per-file counts. *)
Lemma analyze_repository_counts w fs repo_dir counts :
  Forall2 (fun p c => count_code_lines w fs p = Ok c)
    (find_python_files fs repo_dir) counts ->
  analyze_repository w fs repo_dir = Ok (Spec.metrics_of counts).
Proof.
  intros H. unfold analyze_repository.
  rewrite (analyze_loop_counts _ _ _ _ _ _ _ H). simpl.
  unfold Spec.metrics_of. rewrite (Forall2_length _ _ _ H). reflexivity.
Qed.

Lemma analyze_repository_inv w fs repo_dir a :
  analyze_repository w fs repo_dir = Ok a ->
  exists counts,
    Forall2 (fun p c => count_code_lines w fs p = Ok c)
      (find_python_files fs repo_dir) counts
    /\ a = Spec.metrics_of counts.
Proof.
  intros H. unfold analyze_repository in H.
  destruct (fold_left _ _ _) as [cs | e] eqn:Hf; [| discriminate].
  destruct (analyze_loop_inv _ _ _ _ _ Hf) as (cs0 & counts & _ & Hall).
  exists counts. split; [assumption |].
  pose proof (analyze_repository_counts _ _ _ _ Hall) as Heq.
  unfold analyze_repository in Heq. rewrite Hf in Heq.
  simpl in H, Heq. congruence.
Qed.

(** For a file that is read and parsed, the counter returns the number of
    distinct lines on which some node of the tree starts. *)
Lemma count_code_lines_parsed w fs p content tree :
  open_read fs p = Ok content ->
  ast_parse w content = Ok tree ->
  count_code_lines w fs p = Ok (Z.of_nat (size (Spec.start_lines tree))).
Proof.
  intros Hr Hp. unfold count_code_lines. rewrite Hr. simpl. rewrite Hp. simpl.
  rewrite code_lines_start_lines. reflexivity.
Qed.

(** A file that cannot be opened makes the counter raise: the fallback is
    reached through the parser's exceptions only. *)
Lemma count_code_lines_unreadable w fs p :
  open_read fs p = Raise OSError ->
  count_code_lines w fs p = Raise OSError.
Proof.
  intros Hr. unfold count_code_lines. rewrite Hr. reflexivity.
Qed.

End AnalyzerFacts.

Module Binary64Facts.

Import Binary64.
Local Open Scope Z_scope.

Lemma round_half_even_nonneg (a b : Z) :
  0 <= a -> 0 < b -> 0 <= round_half_even a b.
Proof.
  intros Ha Hb. unfold round_half_even.
  assert (0 <= a / b) by (apply Z.div_pos; lia).
  destruct (2 * (a mod b) ?= b); [destruct (Z.even (a / b)) | |]; lia.
Qed.

Lemma round_half_even_upper (a b c : Z) :
  0 <= a -> 0 < b -> a <= c * b -> round_half_even a b <= c.
Proof.
  intros Ha Hb Hc. unfold round_half_even.
  pose proof (Z.div_mod a b ltac:(lia)) as Hdm.
  pose proof (Z.mod_pos_bound a b Hb) as Hm.
  assert (Hk : a / b <= c).
  { apply Z.div_le_upper_bound; lia. }
  assert (Hlt : a / b < c \/ (a / b = c /\ a mod b = 0)) by nia.
  destruct Hlt as [Hlt | [-> Hr]].
  - destruct (2 * (a mod b) ?= b); [destruct (Z.even (a / b)) | |]; lia.
  - rewrite Hr. destruct b; simpl; lia.
Qed.

Lemma ilog2_upper (n d : Z) :
  0 < n -> 0 < d -> n <= 2 ^ 52 * d -> ilog2 n d <= 52.
Proof.
  intros Hn Hd Hle. unfold ilog2.
  assert (Z.log2 n <= 52 + Z.log2 d).
  { rewrite <- Z.log2_mul_pow2 by lia.
    apply Z.log2_le_mono. lia. }
  destruct (_ <? _); lia.
Qed.

Lemma round_pos_bounds (n d B : Z) :
  0 < n -> 0 < d -> 0 <= B <= 2 ^ 52 -> n <= B * d ->
  (0 <= round_pos n d <= inject_Z B)%Q.
Proof.
  intros Hn Hd HB Hle. unfold round_pos.
  pose proof (ilog2_upper n d Hn Hd ltac:(nia)) as Hl.
  set (e := Z.max (ilog2 n d - 52) emin).
  assert (He : e <= 0) by (unfold e, emin; lia).
  rewrite (Z.max_l 0 e), (Z.max_r 0 (- e)) by lia.
  rewrite Z.pow_0_r, !Z.mul_1_r.
  assert (Hp : 0 < 2 ^ (- e)) by (apply Z.pow_pos_nonneg; lia).
  set (m := round_half_even (n * 2 ^ (- e)) d).
  assert (0 <= m) by (apply round_half_even_nonneg; nia).
  assert (m <= B * 2 ^ (- e)) by (apply round_half_even_upper; nia).
  rewrite Qred_correct. unfold Qle. simpl.
  rewrite Z2Pos.id by lia. lia.
Qed.

Lemma round_bounds (q : Q) (B : Z) :
  0 <= B <= 2 ^ 52 -> (0 <= q <= inject_Z B)%Q ->
  (0 <= round q <= inject_Z B)%Q.
Proof.
  intros HB [H0 H1]. unfold round.
  unfold Qle in H0, H1. simpl in H0, H1.
  destruct (Qnum q) as [|n|n] eqn:Hq.
  - unfold Qle. simpl. lia.
  - apply round_pos_bounds; lia.
  - lia.
Qed.

Lemma rint_bounds (q : Q) (B : Z) :
  (0 <= q <= inject_Z B)%Q -> 0 <= rint q <= B.
Proof.
  intros [H0 H1]. unfold rint.
  unfold Qle in H0, H1. simpl in H0, H1.
  destruct (Qnum q) as [|n|n] eqn:Hq.
  - lia.
  - split; [apply round_half_even_nonneg | apply round_half_even_upper]; lia.
  - lia.
Qed.

Lemma no_overflow (q : Q) (B : Z) :
  0 <= B <= 2 ^ 52 -> (0 <= q <= inject_Z B)%Q -> overflows q = false.
Proof.
  intros HB [H0 H1]. unfold overflows.
  destruct (Qle_bool _ _) eqn:Hb; [| reflexivity].
  apply Qle_bool_iff in Hb. rewrite (Qabs_pos q H0) in Hb.
  assert (Hlt : 2 ^ 52 < 2 ^ emax) by (apply Z.pow_lt_mono_r; unfold emax; lia).
  pose proof (Qle_trans _ _ _ Hb H1) as Hc.
  rewrite <- Zle_Qle in Hc. lia.
Qed.

End Binary64Facts.

(** ** The per-job pipeline *)

Module WorkerFacts.

Import CodeAnalyzer GitClient RepoWorker.

Lemma open_read_tree fs (d : scratch_dir) t name :
  fs !! d = Some t ->
  open_read fs (d, name) = open_read {[ 0%nat := t ]} (0%nat, name).
Proof.
  intros H. unfold open_read. simpl. rewrite H, lookup_singleton_eq. reflexivity.
Qed.

Lemma count_code_lines_ext w fs p fs' p' :
  open_read fs p = open_read fs' p' ->
  count_code_lines w fs p = count_code_lines w fs' p'.
Proof.
  intros H. unfold count_code_lines, _count_lines_simple. rewrite H. reflexivity.
Qed.

Lemma analyze_loop_tree w fs (d : scratch_dir) t names acc :
  fs !! d = Some t ->
  fold_left (analyze_step w fs) (map (pair d) names) acc
  = fold_left (analyze_step w {[ 0%nat := t ]}) (map (pair 0%nat) names) acc.
Proof.
  intros H. revert acc. induction names as [| n names IH]; intros acc.
  - reflexivity.
  - cbn [map fold_left]. rewrite IH. f_equal.
    unfold analyze_step.
    rewrite (count_code_lines_ext w fs (d, n) {[ 0%nat := t ]} (0%nat, n))
      by (apply open_read_tree; assumption).
    reflexivity.
Qed.

(** The analysis looks at the tree below its root and at nothing else. *)
Lemma analyze_repository_tree w fs (d : scratch_dir) t :
  fs !! d = Some t ->
  analyze_repository w fs d = Spec.analyze_tree w t.
Proof.
  intros H. unfold Spec.analyze_tree, analyze_repository, find_python_files, rglob_py.
  rewrite H, lookup_singleton_eq.
  rewrite (analyze_loop_tree w fs d t _ _ H), !length_map. reflexivity.
Qed.

Lemma clone_repo_raise w url fs e :
  git_clone w url = Raise e ->
  clone_repo w url None fs = (Raise e, <[fresh (dom fs) := ∅]> fs).
Proof.
  intros Hg. unfold clone_repo, bind, mkdtemp, mkdir_exist_ok, modify, run_git_clone.
  simpl. rewrite !lookup_insert_eq. simpl. rewrite Hg. reflexivity.
Qed.

Lemma clone_repo_ok w url fs t :
  git_clone w url = Ok t ->
  clone_repo w url None fs
  = (Ok (fresh (dom fs)), <[fresh (dom fs) := t]> fs).
Proof.
  intros Hg. unfold clone_repo, bind, mkdtemp, mkdir_exist_ok, modify, run_git_clone.
  simpl. rewrite !lookup_insert_eq. simpl. rewrite Hg. simpl.
  rewrite insert_insert_eq. reflexivity.
Qed.

(** A failed checkout: the job ends in error, and the directory made for the
    checkout is still there. *)
Lemma process_clone_failed w record repo_id repo_url fs e :
  record !! "ID" = Some repo_id ->
  record !! "Repo" = Some repo_url ->
  git_clone w repo_url = Raise e ->
  process w record fs
  = (Ok (error_result repo_id), <[fresh (dom fs) := ∅]> fs).
Proof.
  intros Hid Hurl Hg.
  unfold process, bind, lift, getitem. rewrite Hid, Hurl.
  unfold with_frame, try_finally, try_except_M, bind, on_fs. simpl.
  rewrite (clone_repo_raise w repo_url fs e Hg). reflexivity.
Qed.

(** A successful checkout: the result is the job's, and the cleanup runs. *)
Lemma process_cloned w record repo_id repo_url fs t :
  record !! "ID" = Some repo_id ->
  record !! "Repo" = Some repo_url ->
  git_clone w repo_url = Ok t ->
  process w record fs
  = (Ok (Spec.job_result w repo_id repo_url),
     if rmtree_removes w (fresh (dom fs))
     then delete (fresh (dom fs)) fs
     else <[fresh (dom fs) := t]> fs).
Proof.
  intros Hid Hurl Hg.
  unfold process, bind, lift, getitem. rewrite Hid, Hurl.
  unfold with_frame, try_finally, try_except_M, bind, on_fs, read_fs,
    assign_repo_dir, modify, lift, ret, gets. simpl.
  rewrite (clone_repo_ok w repo_url fs t Hg). simpl.
  rewrite (analyze_repository_tree w _ _ t) by apply lookup_insert_eq.
  unfold Spec.job_result. rewrite Hg. unfold rbind.
  set (d := fresh (dom fs)).
  assert (Hclean :
    cleanup_repo w d (<[d := t]> fs)
    = (Ok tt, if rmtree_removes w d then delete d fs else <[d := t]> fs)).
  { unfold cleanup_repo, bind, gets, modify. simpl.
    rewrite bool_decide_eq_true_2 by (rewrite lookup_insert_eq; eauto).
    destruct (rmtree_removes w d); [| reflexivity].
    rewrite delete_insert_eq. reflexivity. }
  destruct (Spec.analyze_tree w t) as [a | e1]; simpl.
  - destruct (calculate_grade a) as [g | e2]; simpl; rewrite Hclean; reflexivity.
  - rewrite Hclean. reflexivity.
Qed.

(** The result of a call does not depend on the scratch area it starts
    from. *)
Lemma process_outcome w record fs :
  (process w record fs).1 = Spec.worker_outcome w record.
Proof.
  unfold Spec.worker_outcome, getitem.
  destruct (record !! "ID") as [repo_id |] eqn:Hid.
  - destruct (record !! "Repo") as [repo_url |] eqn:Hurl.
    + simpl. destruct (git_clone w repo_url) as [t | e] eqn:Hg.
      * rewrite (process_cloned _ _ _ _ _ _ Hid Hurl Hg). reflexivity.
      * rewrite (process_clone_failed _ _ _ _ _ _ Hid Hurl Hg).
        unfold Spec.job_result. rewrite Hg. reflexivity.
    + unfold process, bind, lift, getitem. rewrite Hid, Hurl. reflexivity.
  - unfold process, bind, lift, getitem. rewrite Hid. reflexivity.
Qed.

Lemma job_result_ID w repo_id repo_url :
  Spec.job_result w repo_id repo_url !! "ID" = Some repo_id.
Proof.
  unfold Spec.job_result.
  destruct (git_clone w repo_url); [destruct (_ <- _ ;; _)%R |]; reflexivity.
Qed.

Lemma job_result_cases w repo_id repo_url :
  (exists grade, Spec.job_result w repo_id repo_url = ready_result repo_id grade)
  \/ Spec.job_result w repo_id repo_url = error_result repo_id.
Proof.
  unfold Spec.job_result.
  destruct (git_clone w repo_url); [destruct (_ <- _ ;; _)%R |]; eauto.
Qed.

Lemma job_result_fails w repo_id repo_url :
  Spec.pipeline_fails w repo_url ->
  Spec.job_result w repo_id repo_url = error_result repo_id.
Proof.
  unfold Spec.pipeline_fails, Spec.job_result.
  destruct (git_clone w repo_url); [destruct (_ <- _ ;; _)%R |]; tauto.
Qed.

(** After a successful checkout the scratch directory is removed on every
    exit of the pipeline, provided [rmtree] manages to delete it. *)
Lemma process_cleans_after_checkout w record repo_id repo_url fs t :
  record !! "ID" = Some repo_id ->
  record !! "Repo" = Some repo_url ->
  git_clone w repo_url = Ok t ->
  rmtree_removes w (fresh (dom fs)) = true ->
  (process w record fs).2 = fs.
Proof.
  intros Hid Hurl Hg Hrm.
  rewrite (process_cloned _ _ _ _ _ _ Hid Hurl Hg), Hrm. simpl.
  apply delete_id, not_elem_of_dom, is_fresh.
Qed.

End WorkerFacts.

(** ** The worker pool *)

Module PoolFacts.

Import RepoWorker Agent2.

Lemma dict_truthy_lookup (d : dict) key v :
  d !! key = Some v -> dict_truthy d = true.
Proof.
  intros H. unfold dict_truthy.
  destruct (Nat.eqb_spec (size d) 0) as [Hz |]; [| reflexivity].
  apply map_size_empty_inv in Hz. subst d. rewrite lookup_empty in H. discriminate.
Qed.

Lemma submit_all_submitted w repos fs :
  Forall (fun repo : dict => is_Some (repo !! "ID")) repos ->
  exists futures fs',
    submit_all w repos fs = (Ok futures, fs')
    /\ Forall2 (Spec.submitted w) repos futures.
Proof.
  intros H. revert fs. induction H as [| repo repos [repo_id Hid] _ IH]; intros fs.
  - exists [], fs. split; [reflexivity | constructor].
  - cbn [submit_all]. unfold bind at 1, submit.
    destruct (process w repo fs) as [r fs1] eqn:Hp.
    pose proof (WorkerFacts.process_outcome w repo fs) as Hout.
    rewrite Hp in Hout. simpl in Hout.
    unfold bind at 1, lift, getitem. rewrite Hid.
    destruct (IH fs1) as (futures & fs2 & Hs & Hall).
    unfold bind at 1. rewrite Hs.
    exists ((r, repo_id) :: futures), fs2. split; [reflexivity |].
    constructor; [split; assumption | assumption].
Qed.

Lemma recorded_submitted w repo entry :
  Spec.submitted w repo entry -> Spec.recorded entry = Spec.terminal w repo.
Proof.
  destruct entry as [fut repo_id]. intros [Hout Hid]. simpl in Hout, Hid.
  unfold Spec.terminal, Spec.recorded. rewrite Hid. subst fut.
  unfold Spec.worker_outcome, getitem. rewrite Hid. simpl.
  destruct (repo !! "Repo"); reflexivity.
Qed.

Lemma recorded_all w repos futures :
  Forall2 (Spec.submitted w) repos futures ->
  map Spec.recorded futures = map (Spec.terminal w) repos.
Proof.
  induction 1 as [| repo entry repos futures Hsub _ IH]; simpl.
  - reflexivity.
  - rewrite (recorded_submitted w repo entry Hsub), IH. reflexivity.
Qed.

Lemma truthy_submitted w repo entry result :
  Spec.submitted w repo entry -> entry.1 = Ok result -> dict_truthy result = true.
Proof.
  destruct entry as [fut repo_id]. intros [Hout Hid] Hr. simpl in *. subst fut.
  unfold Spec.worker_outcome, getitem in Hr. rewrite Hid in Hr. simpl in Hr.
  destruct (repo !! "Repo") as [url |]; [| discriminate].
  injection Hr as <-.
  exact (dict_truthy_lookup _ _ _ (WorkerFacts.job_result_ID w repo_id url)).
Qed.

(** The collection loop appends one result for each future it is given. *)
Lemma collect_loop (entries : list (future * value)) (results : list dict) :
  Forall (fun entry => forall result,
            entry.1 = Ok result -> dict_truthy result = true) entries ->
  fold_left collect entries results = results ++ map Spec.recorded entries.
Proof.
  intros H. revert results.
  induction H as [| [fut repo_id] entries Ht _ IH]; intros results; simpl.
  - by rewrite app_nil_r.
  - rewrite IH. destruct fut as [result | e]; simpl.
    + rewrite (Ht result eq_refl). by rewrite <- app_assoc.
    + by rewrite <- app_assoc.
Qed.

(** The pool returns, and its results are the terminal results of the
    submitted jobs, in the order of completion. *)
Lemma process_parallel_results w as_completed repos fs :
  (forall l, as_completed l ≡ₚ l) ->
  ensure_directories w = Ok tt ->
  Forall (fun repo : dict => is_Some (repo !! "ID")) repos ->
  exists results fs',
    _process_parallel w as_completed repos fs = (Ok results, fs')
    /\ results ≡ₚ map (Spec.terminal w) repos.
Proof.
  intros Hperm Hens Hids.
  destruct (submit_all_submitted w repos fs Hids) as (futures & fs' & Hs & Hall).
  unfold _process_parallel, bind, lift, ret. rewrite Hens, Hs.
  eexists _, fs'. split; [reflexivity |].
  assert (Htruthy : Forall (fun entry : future * value => forall result,
            entry.1 = Ok result -> dict_truthy result = true) futures).
  { clear Hs Hids.
    induction Hall as [| repo entry repos futures Hsub _ IH]; [constructor |].
    constructor; [| assumption].
    intros result Hr. exact (truthy_submitted w repo entry result Hsub Hr). }
  rewrite collect_loop by (rewrite (Hperm futures); assumption).
  simpl. rewrite (Hperm futures), (recorded_all w repos futures Hall).
  reflexivity.
Qed.

Lemma terminal_ID w (repo : dict) :
  is_Some (repo !! "ID") -> Spec.terminal w repo !! "ID" = repo !! "ID".
Proof.
  intros [repo_id Hid]. unfold Spec.terminal. rewrite Hid.
  destruct (repo !! "Repo").
  - apply WorkerFacts.job_result_ID.
  - reflexivity.
Qed.

End PoolFacts.

(** ** The grade *)

Module GradeFacts.

Import Binary64 PyNum CodeAnalyzer.
Local Open Scope Z_scope.

Lemma scale_100_bounds (q : Q) (B : Z) :
  (0 <= q <= inject_Z B)%Q ->
  (0 <= Qmult q (inject_Z 100) <= inject_Z (B * 100))%Q.
Proof.
  intros [H0 H1]. unfold Qle in *. simpl in *. lia.
Qed.

Lemma hundredths_bounds (k B : Z) :
  0 <= k <= B * 100 -> (0 <= Qmake k 100 <= inject_Z B)%Q.
Proof.
  intros H. unfold Qle. simpl. lia.
Qed.

Lemma ratio_bounds (n d : Z) :
  0 <= n <= d -> 0 < d -> (0 <= Qmake n (Z.to_pos d) <= inject_Z 1)%Q.
Proof.
  intros H Hd. unfold Qle. simpl. rewrite Z2Pos.id by lia. lia.
Qed.

(** The three roundings of the grade of a ratio in [[0, 1]]. *)
Lemma grade_of_ratio (q : Q) :
  (0 <= q <= inject_Z 1)%Q ->
  let ratio := Spec.fl q in
  let g := Spec.round2 (Spec.fl (Qmult ratio (inject_Z 100))) in
  overflows ratio = false
  /\ builtin_round2 (float_mul (Finite ratio) (float_of_small_int 100))
     = Ok (Finite g)
  /\ (0 <= g <= inject_Z 100)%Q
  /\ exists k, 0 <= k <= 10000 /\ g = Spec.fl (Qmake k 100).
Proof.
  intros Hq ratio g.
  assert (Hratio : (0 <= ratio <= inject_Z 1)%Q)
    by (apply Binary64Facts.round_bounds; [lia | assumption]).
  pose proof (scale_100_bounds _ _ Hratio) as Hscaled.
  assert (Hp : (0 <= Spec.fl (Qmult ratio (inject_Z 100)) <= inject_Z 100)%Q)
    by (apply Binary64Facts.round_bounds; [lia | exact Hscaled]).
  pose proof (scale_100_bounds _ _ Hp) as Hp100.
  pose proof (Binary64Facts.rint_bounds _ _ Hp100) as Hk.
  assert (Hg : (0 <= g <= inject_Z 100)%Q).
  { apply Binary64Facts.round_bounds; [lia |].
    apply hundredths_bounds. lia. }
  split; [apply (Binary64Facts.no_overflow _ 1); [lia | assumption] |].
  split.
  - unfold float_mul, float_of_small_int, builtin_round2.
    fold (Spec.fl (Qmult ratio (inject_Z 100))).
    rewrite (Binary64Facts.no_overflow _ 100) by (lia || assumption).
    fold (Spec.fl (Qmake (rint (Qmult (Spec.fl (Qmult ratio (inject_Z 100)))
                                  (inject_Z 100))) 100)).
    fold (Spec.round2 (Spec.fl (Qmult ratio (inject_Z 100)))). fold g.
    rewrite (Binary64Facts.no_overflow _ 100) by (lia || assumption).
    reflexivity.
  - split; [assumption |].
    exists (rint (Qmult (Spec.fl (Qmult ratio (inject_Z 100))) (inject_Z 100))).
    split; [lia | reflexivity].
Qed.

End GradeFacts.

(** ** Grades of whole jobs *)

Module JobFacts.

Import Binary64 PyNum CodeAnalyzer RepoWorker.
Local Open Scope Z_scope.

Lemma round_pos_diag (n : Z) : 0 < n -> round_pos n n = 1%Q.
Proof.
  intros Hn. unfold round_pos, ilog2.
  rewrite Z.sub_diag. simpl Z.max. rewrite Z.ltb_irrefl. simpl Z.max.
  change (2 ^ 0) with 1. rewrite !Z.mul_1_r.
  unfold round_half_even.
  rewrite (Z.mul_comm n), Z.div_mul, Z.mod_mul by lia.
  replace (2 * 0 ?= n) with Lt by (symmetry; apply Z.compare_lt_iff; lia).
  vm_compute. reflexivity.
Qed.

Lemma calculate_grade_full (a : analysis) :
  0 < total_lines a ->
  lines_within_limit a = total_lines a ->
  calculate_grade a = Ok (Finite (inject_Z 100)).
Proof.
  destruct a as [tl lwl fol tf]. simpl. intros Hpos ->.
  unfold calculate_grade. simpl.
  rewrite (proj2 (Z.eqb_neq tl 0)) by lia.
  unfold int_truediv. rewrite (proj2 (Z.eqb_neq tl 0)) by lia.
  rewrite (Z.sgn_pos tl Hpos), Z.mul_1_r, (Z.abs_eq tl) by lia.
  destruct tl as [| p | p]; try lia.
  unfold round. cbn [Qnum Qden Z.to_pos].
  rewrite round_pos_diag by lia.
  vm_compute. reflexivity.
Qed.

Lemma calculate_grade_none_within (a : analysis) :
  0 <= total_lines a ->
  lines_within_limit a = 0 ->
  calculate_grade a = Ok (Finite 0%Q).
Proof.
  destruct a as [tl lwl fol tf]. simpl. intros Hpos ->.
  unfold calculate_grade. simpl.
  destruct tl as [| p | p]; try lia; [reflexivity |].
  vm_compute. reflexivity.
Qed.

(** Bounds of the grade of a record with
    [0 <= lines_within_limit <= total_lines]. *)
Lemma calculate_grade_bounds (a : analysis) :
  0 <= lines_within_limit a <= total_lines a ->
  exists g : Q,
    calculate_grade a = Ok (Finite g) /\ (0 <= g <= inject_Z 100)%Q.
Proof.
  destruct a as [tl lwl fol tf]. simpl. intros H.
  unfold calculate_grade. simpl.
  destruct (Z.eqb_spec tl 0) as [-> | Hne].
  - exists 0%Q. split; [reflexivity |]. split; discriminate.
  - assert (Hpos : 0 < tl) by lia.
    destruct (GradeFacts.grade_of_ratio (Qmake lwl (Z.to_pos tl)))
      as (Hov & Hround & Hg & _).
    { apply GradeFacts.ratio_bounds; lia. }
    eexists. split; [| exact Hg].
    unfold int_truediv. rewrite (proj2 (Z.eqb_neq tl 0) Hne).
    rewrite (Z.sgn_pos tl Hpos), Z.mul_1_r, (Z.abs_eq tl) by lia.
    fold (Spec.fl (Qmake lwl (Z.to_pos tl))). rewrite Hov. simpl.
    exact Hround.
Qed.

Lemma counts_nonneg w fs files counts :
  Forall2 (fun p c => count_code_lines w fs p = Ok c) files counts ->
  Forall (fun c => 0 <= c) counts.
Proof.
  induction 1 as [| p c files counts Hc _ IH]; constructor.
  - exact (AnalyzerFacts.count_code_lines_nonneg _ _ _ _ Hc).
  - exact IH.
Qed.

Lemma metrics_bounds w fs repo_dir a :
  analyze_repository w fs repo_dir = Ok a ->
  0 <= lines_within_limit a <= total_lines a.
Proof.
  intros H.
  destruct (AnalyzerFacts.analyze_repository_inv _ _ _ _ H) as (counts & Hall & ->).
  pose proof (AnalyzerFacts.sum_filter_le counts (counts_nonneg _ _ _ _ Hall)).
  simpl. lia.
Qed.

(** The grade cell of the terminal result of a job. *)
Lemma job_result_grade w repo_id repo_url :
  exists g : Q,
    Spec.job_result w repo_id repo_url !! "grade" = Some (VFloat (Finite g))
    /\ (0 <= g <= inject_Z 100)%Q.
Proof.
  unfold Spec.job_result.
  destruct (git_clone w repo_url) as [t | e].
  - unfold Spec.analyze_tree.
    destruct (analyze_repository w {[0%nat := t]} 0%nat) as [a | e] eqn:Ha; simpl.
    + destruct (calculate_grade_bounds a (metrics_bounds _ _ _ _ Ha))
        as (g & -> & Hg).
      exists g. split; [reflexivity | exact Hg].
    + exists 0%Q. split; [reflexivity | split; discriminate].
  - exists 0%Q. split; [reflexivity | split; discriminate].
Qed.

Lemma no_python_files (fs : filesystem) (repo_dir : scratch_dir) t :
  fs !! repo_dir = Some t ->
  (forall name, is_Some (t !! name) -> matches_py name = false) ->
  find_python_files fs repo_dir = [].
Proof.
  intros Ht Hnone. unfold find_python_files, rglob_py. rewrite Ht.
  assert (Hall : Forall (fun n => matches_py n = false) (elements (dom t))).
  { apply Forall_forall. intros n Hn. apply Hnone.
    by apply elem_of_dom, elem_of_elements. }
  induction Hall as [| n l Hn _ IH]; [reflexivity |].
  rewrite filter_cons_False by (rewrite Hn; exact id). exact IH.
Qed.

(** The terminal result of a job is an analysis result: [{ID, grade, Status}]
    with status ["error"] and grade 0.0, or with status ["ready"] and a finite
    grade between 0 and 100. *)
Lemma job_result_shape w repo_id repo_url :
  Spec.job_result w repo_id repo_url = error_result repo_id
  \/ exists g : Q,
       Spec.job_result w repo_id repo_url = ready_result repo_id (Finite g)
       /\ (0 <= g <= inject_Z 100)%Q.
Proof.
  unfold Spec.job_result.
  destruct (git_clone w repo_url) as [t | e]; [| by left].
  unfold Spec.analyze_tree.
  destruct (analyze_repository w {[0%nat := t]} 0%nat) as [a | e] eqn:Ha;
    simpl; [| by left].
  destruct (calculate_grade_bounds a (metrics_bounds _ _ _ _ Ha))
    as (g & -> & Hg).
  right. exists g. split; [reflexivity | exact Hg].
Qed.

Lemma terminal_shape w (repo : dict) (repo_id : value) :
  repo !! "ID" = Some repo_id ->
  Spec.terminal w repo = error_result repo_id
  \/ exists g : Q,
       Spec.terminal w repo = ready_result repo_id (Finite g)
       /\ (0 <= g <= inject_Z 100)%Q.
Proof.
  intros Hid. unfold Spec.terminal. rewrite Hid.
  destruct (repo !! "Repo") as [repo_url |]; [| by left].
  apply job_result_shape.
Qed.

End JobFacts.

(** * The claims of the specification *)

Import CodeAnalyzer.

(** C4 (amended).  For a metrics record with
    [0 <= lines_within_limit <= total_lines] the grade function returns (it
    does not raise) the float [0.0] when [total_lines] is 0, and otherwise
    the two-decimal rounding of [(lines_within_limit / total_lines) * 100],
    where the quotient and the product are each rounded to binary64 before
    the two-decimal rounding; the grade lies between 0 and 100 and is the
    float nearest to a multiple of [1/100]. *)
Theorem calculate_grade_spec (a : analysis) :
  (0 <= lines_within_limit a <= total_lines a)%Z ->
  exists g : Q,
    calculate_grade a = Ok (Finite g)
    /\ (total_lines a = 0%Z -> g = 0%Q)
    /\ (total_lines a <> 0%Z ->
        g = Spec.round2
              (Spec.fl
                 (Qmult
                    (Spec.fl (Qmake (lines_within_limit a)
                                (Z.to_pos (total_lines a))))
                    (inject_Z 100))))
    /\ (0 <= g <= inject_Z 100)%Q
    /\ exists k : Z, (0 <= k <= 10000)%Z /\ g = Spec.fl (Qmake k 100).
Proof.
  destruct a as [tl lwl fol tf]. simpl. intros H.
  unfold calculate_grade. simpl.
  destruct (Z.eqb_spec tl 0) as [-> | Hne].
  - exists 0%Q. split; [reflexivity |]. split; [reflexivity |].
    split; [intros []; reflexivity |].
    split; [split; discriminate |].
    exists 0%Z. split; [lia | reflexivity].
  - assert (Hpos : (0 < tl)%Z) by lia.
    destruct (GradeFacts.grade_of_ratio (Qmake lwl (Z.to_pos tl)))
      as (Hov & Hround & Hg & Hk).
    { apply GradeFacts.ratio_bounds; lia. }
    eexists. split.
    + unfold PyNum.int_truediv.
      rewrite (proj2 (Z.eqb_neq tl 0) Hne).
      rewrite (Z.sgn_pos tl Hpos), Z.mul_1_r, (Z.abs_eq tl) by lia.
      fold (Spec.fl (Qmake lwl (Z.to_pos tl))). rewrite Hov. simpl.
      exact Hround.
    + split; [intros; contradiction |].
      split; [reflexivity |]. split; assumption.
Qed.

Lemma calculate_grade_spec_witness :
  exists g : Q,
    calculate_grade
      {| total_lines := 300; lines_within_limit := 100;
         files_over_limit := 1; total_files := 2 |} = Ok (Finite g)
    /\ (0 <= g <= inject_Z 100)%Q.
Proof.
  destruct (calculate_grade_spec
              {| total_lines := 300; lines_within_limit := 100;
                 files_over_limit := 1; total_files := 2 |})
    as (g & Hg & _ & _ & Hb & _).
  - simpl. lia.
  - exists g. split; assumption.
Defined.

(** C4 as stated does not hold: for 23 lines within the limit out of 160 the
    grade is not the two-decimal rounding of [100 * 23 / 160], neither with
    the quotient computed exactly (14.375, which rounds to 14.38) nor with
    [100 * 23 / 160] evaluated as the float division of 2300 by 160 (which is
    14.375 exactly): the code returns 14.37. *)
Lemma calculate_grade_exact_formula_fails :
  let a := {| total_lines := 160; lines_within_limit := 23;
              files_over_limit := 1; total_files := 2 |} in
  (lines_within_limit a <= total_lines a)%Z
  /\ total_lines a <> 0%Z
  /\ calculate_grade a = Ok (Finite (Spec.fl (Qmake 1437 100)))
  /\ calculate_grade a
     <> Ok (Finite (Spec.round2
                      (Qmake (100 * lines_within_limit a)
                         (Z.to_pos (total_lines a)))))
  /\ calculate_grade a
     <> Ok (Finite (Spec.round2
                      (Spec.fl (Qmake (100 * lines_within_limit a)
                                  (Z.to_pos (total_lines a)))))).
Proof.
  simpl. split; [lia |]. split; [lia |].
  split; [vm_compute; reflexivity |].
  split; intros H; vm_compute in H; discriminate.
Qed.

(** The scenario of the specification: files of 100 and 200 code lines give
    300 lines, 100 of them within the limit, and the grade 33.33 (the float
    nearest to it). *)
Example two_files_scenario :
  analyze_repository Examples.world
    (Examples.checked_out Examples.two_files) 0%nat
  = Ok {| total_lines := 300; lines_within_limit := 100;
          files_over_limit := 1; total_files := 2 |}
  /\ calculate_grade
       {| total_lines := 300; lines_within_limit := 100;
          files_over_limit := 1; total_files := 2 |}
     = Ok (Finite (Spec.fl (Qmake 3333 100))).
Proof.
  split; vm_compute; reflexivity.
Qed.

(** The quotient is rounded before it is multiplied by 100: for 23 lines out
    of 160 the exact percentage is 14.375, the float product is just below
    it, and the grade is 14.37, not 14.38. *)
Example grade_rounds_each_step :
  calculate_grade
    {| total_lines := 160; lines_within_limit := 23;
       files_over_limit := 1; total_files := 2 |}
  = Ok (Finite (Spec.fl (Qmake 1437 100)))
  /\ Spec.round2 (Qmake (100 * 23) 160) = Spec.fl (Qmake 1438 100).
Proof.
  split; vm_compute; reflexivity.
Qed.

(** C5.  The metrics returned for a repository root have
    [lines_within_limit <= total_lines], and none of the four fields is
    negative. *)
Theorem analyze_repository_invariant (w : World) (fs : filesystem)
  (repo_dir : scratch_dir) (a : analysis) :
  analyze_repository w fs repo_dir = Ok a ->
  (lines_within_limit a <= total_lines a
   /\ 0 <= total_lines a /\ 0 <= lines_within_limit a
   /\ 0 <= files_over_limit a /\ 0 <= total_files a)%Z.
Proof.
  intros H.
  destruct (AnalyzerFacts.analyze_repository_inv _ _ _ _ H) as (counts & Hall & ->).
  assert (Hnn : Forall (fun c => 0 <= c)%Z counts).
  { clear H. induction Hall as [| p c files counts Hc _ IH]; constructor.
    - exact (AnalyzerFacts.count_code_lines_nonneg _ _ _ _ Hc).
    - exact IH. }
  pose proof (AnalyzerFacts.sum_filter_le counts Hnn).
  pose proof (AnalyzerFacts.sum_nonneg counts Hnn).
  simpl. lia.
Qed.

Lemma analyze_repository_invariant_witness :
  (lines_within_limit (Spec.metrics_of [151; 150]%Z)
   <= total_lines (Spec.metrics_of [151; 150]%Z)
   /\ 0 <= total_lines (Spec.metrics_of [151; 150]%Z)
   /\ 0 <= lines_within_limit (Spec.metrics_of [151; 150]%Z)
   /\ 0 <= files_over_limit (Spec.metrics_of [151; 150]%Z)
   /\ 0 <= total_files (Spec.metrics_of [151; 150]%Z))%Z.
Proof.
  apply (analyze_repository_invariant Examples.world
           (Examples.checked_out Examples.boundary_files) 0%nat).
  vm_compute. reflexivity.
Defined.

(** C6.  The aggregator folds the per-file counts: every count goes to
    [total_lines]; a count of at most 150 also goes to [lines_within_limit],
    a larger one adds 1 to [files_over_limit] and nothing to
    [lines_within_limit]; [total_files] is the number of enumerated files.
    A turn of the loop on a file of 150 code lines counts it within the
    limit, on a file of 151 code lines over the limit. *)
Theorem analyze_repository_fold (w : World) (fs : filesystem)
  (repo_dir : scratch_dir) (counts : list Z) :
  Forall2 (fun p c => count_code_lines w fs p = Ok c)
    (find_python_files fs repo_dir) counts ->
  analyze_repository w fs repo_dir
  = Ok {| total_lines := Spec.sum counts;
          lines_within_limit := Spec.sum (filter (fun c => c <= 150)%Z counts);
          files_over_limit :=
            Z.of_nat (length (filter (fun c => 150 < c)%Z counts));
          total_files := Z.of_nat (length (find_python_files fs repo_dir)) |}
  /\ (forall p t l f,
        count_code_lines w fs p = Ok 150%Z ->
        analyze_step w fs (Ok (t, l, f)) p = Ok (t + 150, l + 150, f)%Z)
  /\ (forall p t l f,
        count_code_lines w fs p = Ok 151%Z ->
        analyze_step w fs (Ok (t, l, f)) p = Ok (t + 151, l, f + 1)%Z).
Proof.
  intros H. split; [| split].
  - rewrite (AnalyzerFacts.analyze_repository_counts _ _ _ _ H).
    unfold Spec.metrics_of, Spec.limit.
    rewrite (Forall2_length _ _ _ H). reflexivity.
  - intros p t l f Hc.
    exact (AnalyzerFacts.analyze_step_ok w fs t l f p 150%Z Hc).
  - intros p t l f Hc.
    exact (AnalyzerFacts.analyze_step_ok w fs t l f p 151%Z Hc).
Qed.

Lemma analyze_repository_fold_witness :
  exists a,
    analyze_repository Examples.world
      (Examples.checked_out Examples.boundary_files) 0%nat = Ok a
    /\ total_lines a = 301%Z /\ lines_within_limit a = 150%Z
    /\ files_over_limit a = 1%Z /\ total_files a = 2%Z.
Proof.
  assert (Hfiles :
    find_python_files (Examples.checked_out Examples.boundary_files) 0%nat
    = [(0%nat, "over_limit.py"); (0%nat, "at_limit.py")])
    by (vm_compute; reflexivity).
  assert (Hcounts :
    Forall2 (fun p c => count_code_lines Examples.world
                          (Examples.checked_out Examples.boundary_files) p
                        = Ok c)
      (find_python_files (Examples.checked_out Examples.boundary_files) 0%nat)
      [151; 150]%Z).
  { rewrite Hfiles.
    constructor; [vm_compute; reflexivity |].
    constructor; [vm_compute; reflexivity | constructor]. }
  destruct (analyze_repository_fold Examples.world
              (Examples.checked_out Examples.boundary_files) 0%nat
              [151; 150]%Z Hcounts) as [Heq _].
  eexists. split; [exact Heq |].
  rewrite Hfiles. vm_compute. repeat split; reflexivity.
Defined.

(** C7 (the code departs from it).  The counter returns the number of
    distinct lines on which a node starts, and the line of a documentation
    string is such a line: for the module that consists of the one-line
    documentation string alone, the structural count is 1, not 0. *)
Theorem docstring_line_is_counted :
  open_read (Examples.checked_out Examples.docstring_only) (0%nat, "mod.py")
  = Ok Examples.docstring_text
  /\ ast_parse Examples.world Examples.docstring_text
     = Ok Examples.docstring_module
  /\ Spec.start_lines Examples.docstring_module = {[ 1%Z ]}
  /\ count_code_lines Examples.world
       (Examples.checked_out Examples.docstring_only) (0%nat, "mod.py")
     = Ok 1%Z.
Proof.
  repeat split; vm_compute; reflexivity.
Qed.

(** The path the handler covers.  When the contents of a file are read and
    the parser rejects them with [SyntaxError] (or [UnicodeDecodeError]), the
    counter does not raise: it returns the number of lines whose trimmed
    content is not empty, which is not negative; and the analysis of a
    repository that holds the file returns its metrics whenever the counter
    returns for the other files. *)
Theorem count_code_lines_fallback (w : World) (fs : filesystem)
  (p : file_path) (content : text) (e : exn) :
  open_read fs p = Ok content ->
  ast_parse w content = Raise e ->
  e = SyntaxError \/ e = UnicodeDecodeError ->
  count_code_lines w fs p = Ok (Spec.nonblank_line_count content)
  /\ (0 <= Spec.nonblank_line_count content)%Z
  /\ forall repo_dir,
       (forall q, q ∈ find_python_files fs repo_dir -> q <> p ->
                  exists n, count_code_lines w fs q = Ok n) ->
       exists a, analyze_repository w fs repo_dir = Ok a.
Proof.
  intros Hr Hp He.
  assert (Hc : count_code_lines w fs p = Ok (Spec.nonblank_line_count content)).
  { unfold count_code_lines. rewrite Hr. simpl. rewrite Hp. simpl.
    destruct He as [-> | ->]; simpl;
      exact (AnalyzerFacts.count_lines_simple_readable fs p content Hr). }
  split; [exact Hc |]. split; [unfold Spec.nonblank_line_count; lia |].
  intros repo_dir Hothers.
  assert (Hall : exists counts,
    Forall2 (fun q c => count_code_lines w fs q = Ok c)
      (find_python_files fs repo_dir) counts).
  { induction (find_python_files fs repo_dir) as [| q files IH].
    - exists []. constructor.
    - destruct IH as (counts & Hcounts).
      { intros q' Hin. apply Hothers. by right. }
      destruct (decide (q = p)) as [-> | Hne].
      + eexists (_ :: counts). constructor; [exact Hc | exact Hcounts].
      + destruct (Hothers q ltac:(by left) Hne) as (n & Hn).
        exists (n :: counts). constructor; assumption. }
  destruct Hall as (counts & Hcounts).
  eexists. exact (AnalyzerFacts.analyze_repository_counts _ _ _ _ Hcounts).
Qed.

Lemma count_code_lines_fallback_witness :
  count_code_lines Examples.world
    (Examples.checked_out Examples.malformed_file) (0%nat, "bad.py")
  = Ok 2%Z.
Proof.
  assert (Hr : open_read (Examples.checked_out Examples.malformed_file)
                 (0%nat, "bad.py") = Ok Examples.malformed_text)
    by (vm_compute; reflexivity).
  assert (Hp : ast_parse Examples.world Examples.malformed_text
               = Raise SyntaxError)
    by (vm_compute; reflexivity).
  rewrite (proj1 (count_code_lines_fallback _ _ _ _ _ Hr Hp
                    (or_introl eq_refl))).
  vm_compute. reflexivity.
Defined.

(** C8 (the code departs from it).  A parse failure that is neither
    [SyntaxError] nor [UnicodeDecodeError] escapes the handler: for a file
    that holds a NUL character [ast.parse] raises [ValueError], the counter
    raises it instead of falling back to the count of non-blank lines (which
    would be 1), the analysis of the repository that holds the file is
    aborted, and the job ends in error. *)
Theorem count_code_lines_raises_on_nul :
  open_read (Examples.checked_out FailureExamples.with_nul) (0%nat, "nul.py")
  = Ok FailureExamples.nul_text
  /\ ast_parse FailureExamples.world FailureExamples.nul_text = Raise ValueError
  /\ _count_lines_simple (Examples.checked_out FailureExamples.with_nul)
       (0%nat, "nul.py") = Ok 1%Z
  /\ count_code_lines FailureExamples.world
       (Examples.checked_out FailureExamples.with_nul) (0%nat, "nul.py")
     = Raise ValueError
  /\ analyze_repository FailureExamples.world
       (Examples.checked_out FailureExamples.with_nul) 0%nat
     = Raise ValueError
  /\ (RepoWorker.process FailureExamples.world Examples.job_two ∅).1
     = Ok (RepoWorker.error_result (VInt 1)).
Proof.
  repeat split; vm_compute; reflexivity.
Qed.

(** C9.  For a file that cannot be read, the fallback counter returns 0; it
    neither raises nor tells the file from an empty one. *)
Theorem count_lines_simple_unreadable (fs : filesystem) (p : file_path)
  (e : exn) :
  open_read fs p = Raise e ->
  _count_lines_simple fs p = Ok 0%Z
  /\ forall fs' p',
       open_read fs' p' = Ok [] ->
       _count_lines_simple fs' p' = _count_lines_simple fs p.
Proof.
  intros Hr.
  assert (H0 : _count_lines_simple fs p = Ok 0%Z)
    by (unfold _count_lines_simple; rewrite Hr; reflexivity).
  split; [exact H0 |].
  intros fs' p' Hempty. rewrite H0.
  rewrite (AnalyzerFacts.count_lines_simple_readable fs' p' [] Hempty).
  reflexivity.
Qed.

Lemma count_lines_simple_unreadable_witness :
  _count_lines_simple (Examples.checked_out Examples.unreadable_file)
    (0%nat, "secret.py") = Ok 0%Z.
Proof.
  assert (Hr : open_read (Examples.checked_out Examples.unreadable_file)
                 (0%nat, "secret.py") = Raise OSError)
    by (vm_compute; reflexivity).
  exact (proj1 (count_lines_simple_unreadable _ _ _ Hr)).
Defined.

(** C10.  On a record that has the keys ["ID"] and ["Repo"], [process] does
    not raise: it returns a dictionary whose ["ID"] is the record's, whose
    ["Status"] is ["ready"] or ["error"], and whose ["grade"] is [0.0] when
    the status is ["error"]. *)
Theorem process_total (w : World) (record : dict) (fs : filesystem) :
  is_Some (record !! "ID") ->
  is_Some (record !! "Repo") ->
  exists (d : dict) (fs' : filesystem),
    RepoWorker.process w record fs = (Ok d, fs')
    /\ d !! "ID" = record !! "ID"
    /\ (d !! "Status" = Some (VStr "ready")
        \/ d !! "Status" = Some (VStr "error"))
    /\ (d !! "Status" = Some (VStr "error") ->
        d !! "grade" = Some (VFloat (Finite 0%Q))).
Proof.
  intros [repo_id Hid] [repo_url Hurl].
  pose proof (WorkerFacts.process_outcome w record fs) as Hout.
  destruct (RepoWorker.process w record fs) as [r fs'] eqn:Hp.
  simpl in Hout. subst r.
  unfold Spec.worker_outcome, getitem. rewrite Hid, Hurl. simpl.
  exists (Spec.job_result w repo_id repo_url), fs'.
  split; [reflexivity |].
  split; [apply WorkerFacts.job_result_ID |].
  destruct (WorkerFacts.job_result_cases w repo_id repo_url) as [[g ->] | ->].
  - split; [left; reflexivity |]. intros Hs. vm_compute in Hs. discriminate.
  - split; [right; reflexivity |]. intros _. reflexivity.
Qed.

Lemma process_total_witness :
  exists (d : dict) (fs' : filesystem),
    RepoWorker.process Examples.world Examples.job_two ∅ = (Ok d, fs')
    /\ d !! "ID" = Some (VInt 1).
Proof.
  assert (Hid : Examples.job_two !! "ID" = Some (VInt 1))
    by (vm_compute; reflexivity).
  assert (Hurl : Examples.job_two !! "Repo"
                 = Some (VStr "https://example.org/two.git"))
    by (vm_compute; reflexivity).
  destruct (process_total Examples.world Examples.job_two ∅
              (ex_intro _ _ Hid) (ex_intro _ _ Hurl))
    as (d & fs' & Hp & Hd & _).
  exists d, fs'. split; [exact Hp | congruence].
Defined.

(** C3 (the code departs from it).  When the checkout fails or runs into the
    timeout, [clone_repo] raises after [mkdtemp] has made the scratch
    directory; [repo_dir] is still [None] in the [finally] clause, no cleanup
    runs, and the directory is there when the job's result is returned. *)
Theorem scratch_dir_left_after_failed_fetch :
  RepoWorker.process Examples.world Examples.job_missing ∅
  = (Ok (RepoWorker.error_result (VInt 2)), {[ 0%nat := ∅ ]})
  /\ RepoWorker.process Examples.world Examples.job_slow ∅
     = (Ok (RepoWorker.error_result (VInt 3)), {[ 0%nat := ∅ ]}).
Proof.
  split; vm_compute; reflexivity.
Qed.

(** C1.  The pool returns exactly one analysis result for each job of its
    input, whatever the jobs' outcomes: as many results as jobs; the IDs of
    the results are the IDs of the jobs up to order; the results are, up to
    order, the terminal results of the jobs, one for each; and every result
    is a dictionary [{ID, grade, Status}] with status ["error"] and grade
    0.0, or with status ["ready"] and a finite grade between 0 and 100. *)
Theorem pool_completeness (w : World)
  (as_completed : list (Agent2.future * value) -> list (Agent2.future * value))
  (repos : list dict) (fs : filesystem) :
  (forall l, as_completed l ≡ₚ l) ->
  ensure_directories w = Ok tt ->
  Forall (fun repo : dict => is_Some (repo !! "ID")) repos ->
  exists (results : list dict) (fs' : filesystem),
    Agent2._process_parallel w as_completed repos fs = (Ok results, fs')
    /\ length results = length repos
    /\ map (fun d : dict => d !! "ID") results
       ≡ₚ map (fun repo : dict => repo !! "ID") repos
    /\ results ≡ₚ map (Spec.terminal w) repos
    /\ Forall (fun d : dict =>
                exists repo_id : value,
                  d = RepoWorker.error_result repo_id
                  \/ exists g : Q,
                       d = RepoWorker.ready_result repo_id (Finite g)
                       /\ (0 <= g <= inject_Z 100)%Q) results.
Proof.
  intros Hperm Hens Hids.
  destruct (PoolFacts.process_parallel_results w as_completed repos fs
              Hperm Hens Hids) as (results & fs' & Hrun & Hres).
  exists results, fs'. split; [exact Hrun |]. split; [| split; [| split]].
  - rewrite (Permutation_length Hres). apply length_map.
  - rewrite Hres, map_map. clear Hrun Hres.
    induction Hids as [| repo repos Hid _ IH]; simpl.
    + reflexivity.
    + rewrite (PoolFacts.terminal_ID w repo Hid). by rewrite IH.
  - exact Hres.
  - rewrite Hres. apply Forall_fmap.
    eapply Forall_impl; [exact Hids |].
    intros repo [repo_id Hid]. simpl. exists repo_id.
    exact (JobFacts.terminal_shape w repo repo_id Hid).
Qed.

Lemma pool_completeness_witness :
  exists (results : list dict) (fs' : filesystem),
    Agent2._process_parallel Examples.world (@rev _)
      [Examples.job_two; Examples.job_missing; Examples.job_slow] ∅
    = (Ok results, fs')
    /\ length results = 3%nat
    /\ results
       ≡ₚ map (Spec.terminal Examples.world)
            [Examples.job_two; Examples.job_missing; Examples.job_slow]
    /\ Forall (fun d : dict =>
                exists repo_id : value,
                  d = RepoWorker.error_result repo_id
                  \/ exists g : Q,
                       d = RepoWorker.ready_result repo_id (Finite g)
                       /\ (0 <= g <= inject_Z 100)%Q) results.
Proof.
  assert (Hids : Forall (fun repo : dict => is_Some (repo !! "ID"))
                   [Examples.job_two; Examples.job_missing; Examples.job_slow]).
  { repeat constructor; eexists; vm_compute; reflexivity. }
  destruct (pool_completeness Examples.world (@rev _)
              [Examples.job_two; Examples.job_missing; Examples.job_slow] ∅
              (fun l => Permutation_sym (Permutation_rev l)) eq_refl Hids)
    as (results & fs' & Hrun & Hlen & _ & Hres & Hshape).
  exists results, fs'. repeat split; assumption.
Defined.

(** C2.  A failure in a job's pipeline (the checkout fails or times out, the
    analysis or the grade raises) is caught in the worker, which returns
    [{ID, grade 0.0, Status "error"}] for that job; the pool still returns,
    and the result it holds for each job is a function of that job alone. *)
Theorem job_failure_isolated (w : World)
  (as_completed : list (Agent2.future * value) -> list (Agent2.future * value))
  (repos : list dict) (fs : filesystem) :
  (forall l, as_completed l ≡ₚ l) ->
  ensure_directories w = Ok tt ->
  Forall (fun repo : dict => is_Some (repo !! "ID")) repos ->
  exists (results : list dict) (fs' : filesystem),
    Agent2._process_parallel w as_completed repos fs = (Ok results, fs')
    /\ results ≡ₚ map (Spec.terminal w) repos
    /\ forall (repo : dict) (repo_id repo_url : value),
         repo ∈ repos ->
         repo !! "ID" = Some repo_id ->
         repo !! "Repo" = Some repo_url ->
         Spec.pipeline_fails w repo_url ->
         (forall fs0, (RepoWorker.process w repo fs0).1
                      = Ok (RepoWorker.error_result repo_id))
         /\ Spec.terminal w repo = RepoWorker.error_result repo_id.
Proof.
  intros Hperm Hens Hids.
  destruct (PoolFacts.process_parallel_results w as_completed repos fs
              Hperm Hens Hids) as (results & fs' & Hrun & Hres).
  exists results, fs'. split; [exact Hrun |]. split; [exact Hres |].
  intros repo repo_id repo_url _ Hid Hurl Hfail.
  pose proof (WorkerFacts.job_result_fails w repo_id repo_url Hfail) as Herr.
  split.
  - intros fs0. rewrite WorkerFacts.process_outcome.
    unfold Spec.worker_outcome, getitem. rewrite Hid, Hurl. simpl.
    by rewrite Herr.
  - unfold Spec.terminal. by rewrite Hid, Hurl.
Qed.

Lemma job_failure_isolated_witness :
  exists (results : list dict) (fs' : filesystem),
    Agent2._process_parallel Examples.world (@rev _)
      [Examples.job_two; Examples.job_missing; Examples.job_slow;
       Examples.job_unreadable] ∅
    = (Ok results, fs')
    /\ results
       ≡ₚ map (Spec.terminal Examples.world)
            [Examples.job_two; Examples.job_missing; Examples.job_slow;
             Examples.job_unreadable].
Proof.
  assert (Hids : Forall (fun repo : dict => is_Some (repo !! "ID"))
                   [Examples.job_two; Examples.job_missing; Examples.job_slow;
                    Examples.job_unreadable]).
  { repeat constructor; eexists; vm_compute; reflexivity. }
  destruct (job_failure_isolated Examples.world (@rev _)
              [Examples.job_two; Examples.job_missing; Examples.job_slow;
               Examples.job_unreadable] ∅
              (fun l => Permutation_sym (Permutation_rev l)) eq_refl Hids)
    as (results & fs' & Hrun & Hres & _).
  exists results, fs'. split; [exact Hrun | exact Hres].
Defined.

(** * Further properties of the analysis stage *)

(** ** File enumeration and the loop over files *)

Module WalkerFacts.

Import CodeAnalyzer.
Local Open Scope Z_scope.

Lemma substring_all (s : string) :
  String.substring 0 (String.length s) s = s.
Proof. induction s as [| c s IH]; simpl; [reflexivity | by rewrite IH]. Qed.

Lemma substring_suffix (stem suffix : string) :
  String.substring (String.length stem) (String.length suffix)
    (String.append stem suffix) = suffix.
Proof.
  induction stem as [| c stem IH]; simpl; [apply substring_all | exact IH].
Qed.

Lemma length_append (s1 s2 : string) :
  String.length (String.append s1 s2)
  = (String.length s1 + String.length s2)%nat.
Proof. induction s1 as [| c s1 IH]; simpl; [reflexivity | by rewrite IH]. Qed.

Lemma substring_split (s : string) (n : nat) :
  (n <= String.length s)%nat ->
  s = String.append (String.substring 0 n s)
        (String.substring n (String.length s - n) s).
Proof.
  revert n. induction s as [| c s IH]; intros [| n] Hn; simpl in *.
  - reflexivity.
  - lia.
  - by rewrite substring_all.
  - change (String c s
            = String c (String.append (String.substring 0 n s)
                          (String.substring n (String.length s - n) s))).
    f_equal. apply IH. lia.
Qed.

(** The test of the glob pattern holds of the names that end in [.py]. *)
Lemma matches_py_spec (name : string) :
  matches_py name = true <-> exists stem, name = String.append stem ".py".
Proof.
  unfold matches_py. rewrite andb_true_iff, Nat.leb_le, String.eqb_eq. split.
  - intros [Hlen Hsub].
    exists (String.substring 0 (String.length name - 3) name).
    pose proof (substring_split name (String.length name - 3) ltac:(lia)) as Hs.
    replace (String.length name - (String.length name - 3))%nat with 3%nat
      in Hs by lia.
    rewrite Hsub in Hs. exact Hs.
  - intros [stem ->]. rewrite length_append. simpl. split; [lia |].
    replace (String.length stem + 3 - 3)%nat with (String.length stem) by lia.
    exact (substring_suffix stem ".py").
Qed.

Lemma analyze_loop_raises w fs files p e acc :
  p ∈ files ->
  count_code_lines w fs p = Raise e ->
  exists e', fold_left (analyze_step w fs) files acc = Raise e'.
Proof.
  intros Hin Hc. revert acc.
  induction files as [| q files IH]; intros acc.
  - by apply elem_of_nil in Hin.
  - cbn [fold_left]. apply elem_of_cons in Hin as [<- | Hin].
    + destruct acc as [[[t l] f] | e0].
      * unfold analyze_step at 2. simpl. rewrite Hc. simpl.
        exists e. apply AnalyzerFacts.analyze_loop_raise.
      * exists e0. rewrite AnalyzerFacts.analyze_step_raise.
        apply AnalyzerFacts.analyze_loop_raise.
    + apply IH. exact Hin.
Qed.

(** Two turns of the loop commute when both return. *)
Lemma analyze_step_swap w fs acc x y r :
  analyze_step w fs (analyze_step w fs acc x) y = Ok r ->
  analyze_step w fs (analyze_step w fs acc y) x = Ok r.
Proof.
  destruct acc as [[[t l] f] | e]; [| discriminate].
  destruct (count_code_lines w fs x) as [cx | ex] eqn:Hx;
    [| unfold analyze_step; simpl; rewrite Hx; discriminate].
  destruct (count_code_lines w fs y) as [cy | ey] eqn:Hy.
  - rewrite (AnalyzerFacts.analyze_step_ok _ _ _ _ _ _ _ Hx),
      (AnalyzerFacts.analyze_step_ok _ _ _ _ _ _ _ Hy),
      (AnalyzerFacts.analyze_step_ok _ _ _ _ _ _ _ Hy),
      (AnalyzerFacts.analyze_step_ok _ _ _ _ _ _ _ Hx).
    intros [= <-]. destruct (cx <=? 150), (cy <=? 150);
      f_equal; rewrite !pair_equal_spec; repeat split; lia.
  - rewrite (AnalyzerFacts.analyze_step_ok _ _ _ _ _ _ _ Hx).
    destruct (cx <=? 150); unfold analyze_step; simpl; rewrite Hy; discriminate.
Qed.

Lemma analyze_loop_perm w fs files files' :
  files ≡ₚ files' ->
  forall acc r,
    fold_left (analyze_step w fs) files acc = Ok r ->
    fold_left (analyze_step w fs) files' acc = Ok r.
Proof.
  induction 1 as [| x l l' _ IH | x y l | l1 l2 l3 _ IH1 _ IH2]; intros acc r.
  - auto.
  - cbn [fold_left]. apply IH.
  - cbn [fold_left]. intros H.
    destruct (AnalyzerFacts.analyze_loop_inv _ _ _ _ _ H) as (cs & _ & Hcs & _).
    rewrite Hcs in H. rewrite (analyze_step_swap _ _ _ _ _ _ Hcs). exact H.
  - intros H. apply IH2, IH1, H.
Qed.

Lemma find_python_files_NoDup (fs : filesystem) (repo_dir : scratch_dir) :
  NoDup (find_python_files fs repo_dir).
Proof.
  unfold find_python_files, rglob_py.
  destruct (fs !! repo_dir) as [t |]; [| constructor].
  apply NoDup_fmap_2; [intros x y [= ->]; reflexivity |].
  apply NoDup_filter, NoDup_elements.
Qed.

Lemma find_python_files_elem (fs : filesystem) (repo_dir : scratch_dir)
  (p : file_path) :
  p ∈ find_python_files fs repo_dir
  <-> exists t stem,
        fs !! repo_dir = Some t
        /\ p = (repo_dir, String.append stem ".py")
        /\ is_Some (t !! String.append stem ".py").
Proof.
  unfold find_python_files, rglob_py.
  destruct (fs !! repo_dir) as [t |] eqn:Ht.
  - destruct p as [d name]. rewrite list_elem_of_fmap. split.
    + intros (n & [= -> ->] & Hn).
      apply list_elem_of_filter in Hn as [Hm Hn].
      apply Is_true_true, matches_py_spec in Hm as [stem ->].
      apply elem_of_elements, elem_of_dom in Hn.
      exists t, stem. auto.
    + intros (t' & stem & [= <-] & [= -> ->] & Hsome).
      exists (String.append stem ".py"). split; [reflexivity |].
      apply list_elem_of_filter. split.
      * apply Is_true_true, matches_py_spec. eauto.
      * by apply elem_of_elements, elem_of_dom.
  - split.
    + intros Hin. by apply elem_of_nil in Hin.
    + intros (t & stem & [=] & _).
Qed.

End WalkerFacts.

Import CodeAnalyzer.

(** X1.  [find_python_files] returns the entries below the root whose name
    ends in [.py], each once, and nothing for a root that does not exist. *)
Theorem find_python_files_spec (fs : filesystem) (repo_dir : scratch_dir) :
  NoDup (find_python_files fs repo_dir)
  /\ (forall p : file_path,
        p ∈ find_python_files fs repo_dir
        <-> exists t stem,
              fs !! repo_dir = Some t
              /\ p = (repo_dir, String.append stem ".py")
              /\ is_Some (t !! String.append stem ".py"))
  /\ (fs !! repo_dir = None -> find_python_files fs repo_dir = []).
Proof.
  split; [apply WalkerFacts.find_python_files_NoDup |].
  split; [apply WalkerFacts.find_python_files_elem |].
  intros Hnone. unfold find_python_files, rglob_py. by rewrite Hnone.
Qed.

(** X2.  The totals computed by the loop of [analyze_repository] do not
    depend on the order in which the files are enumerated. *)
Theorem analyze_loop_order_irrelevant (w : World) (fs : filesystem)
  (files files' : list file_path) (r : counters) :
  files ≡ₚ files' ->
  fold_left (analyze_step w fs) files (Ok (0, 0, 0)%Z) = Ok r ->
  fold_left (analyze_step w fs) files' (Ok (0, 0, 0)%Z) = Ok r.
Proof.
  intros Hperm. apply WalkerFacts.analyze_loop_perm. exact Hperm.
Qed.

Lemma analyze_loop_order_irrelevant_witness :
  fold_left (analyze_step Examples.world
               (Examples.checked_out Examples.boundary_files))
    [(0%nat, "at_limit.py"); (0%nat, "over_limit.py")] (Ok (0, 0, 0)%Z)
  = Ok (301, 150, 1)%Z.
Proof.
  apply (analyze_loop_order_irrelevant Examples.world
           (Examples.checked_out Examples.boundary_files)
           [(0%nat, "over_limit.py"); (0%nat, "at_limit.py")]).
  - apply perm_swap.
  - vm_compute. reflexivity.
Defined.


(** X3.  A checkout without any entry whose name ends in [.py] (an empty
    repository among them) is not an error: the job's result is
    [{ID, grade 0.0, Status "ready"}]. *)
Theorem process_without_python_files (w : World) (record : dict)
  (repo_id repo_url : value) (t : tree) (fs : filesystem) :
  record !! "ID" = Some repo_id ->
  record !! "Repo" = Some repo_url ->
  git_clone w repo_url = Ok t ->
  (forall name, is_Some (t !! name) -> matches_py name = false) ->
  (RepoWorker.process w record fs).1
  = Ok (RepoWorker.ready_result repo_id (Finite 0%Q)).
Proof.
  intros Hid Hurl Hg Hnone.
  rewrite WorkerFacts.process_outcome.
  unfold Spec.worker_outcome, getitem. rewrite Hid, Hurl. simpl.
  unfold Spec.job_result. rewrite Hg.
  unfold Spec.analyze_tree, analyze_repository.
  rewrite (JobFacts.no_python_files {[0%nat := t]} 0%nat t)
    by (apply lookup_singleton_eq || exact Hnone).
  reflexivity.
Qed.

Lemma process_without_python_files_witness :
  (RepoWorker.process
     {| git_clone := fun _ => Ok {[ "README.md" := Readable [] ]};
        ast_parse := Examples.parse;
        rmtree_removes := fun _ => true;
        ensure_directories := Ok tt |}
     Examples.job_two ∅).1
  = Ok (RepoWorker.ready_result (VInt 1) (Finite 0%Q)).
Proof.
  apply (process_without_python_files _ Examples.job_two (VInt 1)
           (VStr "https://example.org/two.git") {[ "README.md" := Readable [] ]}).
  - vm_compute. reflexivity.
  - vm_compute. reflexivity.
  - reflexivity.
  - intros name [c Hc]. apply lookup_singleton_Some in Hc as [<- _].
    vm_compute. reflexivity.
Defined.

(** X4.  One entry named [*.py] that cannot be opened (no permission, a
    directory of that name) fails the whole job, whatever the other files
    hold: the result is [{ID, grade 0.0, Status "error"}]. *)
Theorem process_unreadable_entry (w : World) (record : dict)
  (repo_id repo_url : value) (t : tree) (stem : string) (fs : filesystem) :
  record !! "ID" = Some repo_id ->
  record !! "Repo" = Some repo_url ->
  git_clone w repo_url = Ok t ->
  t !! String.append stem ".py" = Some Unreadable ->
  (RepoWorker.process w record fs).1 = Ok (RepoWorker.error_result repo_id).
Proof.
  intros Hid Hurl Hg Hentry.
  rewrite WorkerFacts.process_outcome.
  unfold Spec.worker_outcome, getitem. rewrite Hid, Hurl. simpl.
  f_equal. apply WorkerFacts.job_result_fails.
  unfold Spec.pipeline_fails. rewrite Hg.
  unfold Spec.analyze_tree, analyze_repository.
  destruct (WalkerFacts.analyze_loop_raises w {[0%nat := t]}
              (find_python_files {[0%nat := t]} 0%nat)
              (0%nat, String.append stem ".py") OSError (Ok (0, 0, 0)%Z))
    as [e' ->]; [| | exact I].
  - apply WalkerFacts.find_python_files_elem. exists t, stem.
    split; [apply lookup_singleton_eq |]. split; [reflexivity | eauto].
  - apply AnalyzerFacts.count_code_lines_unreadable.
    unfold open_read. simpl. rewrite lookup_singleton_eq. simpl.
    rewrite Hentry. reflexivity.
Qed.

Lemma process_unreadable_entry_witness :
  (RepoWorker.process Examples.world Examples.job_unreadable ∅).1
  = Ok (RepoWorker.error_result (VInt 4)).
Proof.
  apply (process_unreadable_entry Examples.world Examples.job_unreadable
           (VInt 4) (VStr "https://example.org/unreadable.git")
           Examples.unreadable_file "secret").
  - vm_compute. reflexivity.
  - vm_compute. reflexivity.
  - vm_compute. reflexivity.
  - vm_compute. reflexivity.
Defined.

Module ExtremesFacts.

Local Open Scope Z_scope.

Lemma filter_all_length {A} (P : A -> Prop) `{forall x, Decision (P x)}
  (l : list A) :
  length (filter P l) = length l -> filter P l = l.
Proof.
  induction l as [| x l IH]; [reflexivity |].
  destruct (decide (P x)) as [Hx | Hx].
  - rewrite filter_cons_True by assumption. simpl. intros Hl.
    f_equal. apply IH. lia.
  - rewrite filter_cons_False by assumption. simpl. intros Hl.
    pose proof (length_filter P l). lia.
Qed.

Lemma filter_none_length {A} (P : A -> Prop) `{forall x, Decision (P x)}
  (l : list A) :
  length (filter P l) = 0%nat -> Forall (fun x => ~ P x) l.
Proof.
  induction l as [| x l IH]; [constructor |].
  destruct (decide (P x)) as [Hx | Hx].
  - rewrite filter_cons_True by assumption. discriminate.
  - rewrite filter_cons_False by assumption. intros Hl.
    constructor; [exact Hx | apply IH, Hl].
Qed.

(** No count over the limit: every line is within the limit. *)
Lemma none_over (counts : list Z) :
  length (filter (fun c => Spec.limit < c) counts) = 0%nat ->
  filter (fun c => c <= Spec.limit) counts = counts.
Proof.
  intros H. apply filter_none_length in H.
  induction H as [| c counts Hc _ IH]; [reflexivity |].
  rewrite filter_cons_True by lia. by rewrite IH.
Qed.

(** Every count over the limit: no line is within the limit. *)
Lemma all_over (counts : list Z) :
  length (filter (fun c => Spec.limit < c) counts) = length counts ->
  filter (fun c => c <= Spec.limit) counts = [].
Proof.
  intros H. apply filter_all_length in H.
  assert (Hall : Forall (fun c => Spec.limit < c) counts).
  { rewrite <- H. apply Forall_forall. intros c Hc.
    by apply list_elem_of_filter in Hc as [Hc _]. }
  clear H. induction Hall as [| c counts Hc _ IH]; [reflexivity |].
  rewrite filter_cons_False by lia. exact IH.
Qed.

End ExtremesFacts.

(** X5.  The two ends of the scale.  When the analysis of a repository finds
    no file over the limit and at least one code line, the grade is exactly
    100.0; when every enumerated file is over the limit (or there is none),
    the grade is exactly 0.0. *)
Theorem grade_extremes (w : World) (fs : filesystem) (repo_dir : scratch_dir)
  (a : analysis) :
  analyze_repository w fs repo_dir = Ok a ->
  (files_over_limit a = 0%Z -> (0 < total_lines a)%Z ->
   calculate_grade a = Ok (Finite (inject_Z 100)))
  /\ (files_over_limit a = total_files a ->
      calculate_grade a = Ok (Finite 0%Q)).
Proof.
  intros H.
  destruct (AnalyzerFacts.analyze_repository_inv _ _ _ _ H) as (counts & Hall & ->).
  pose proof (AnalyzerFacts.sum_nonneg counts (JobFacts.counts_nonneg _ _ _ _ Hall))
    as Hsum.
  split.
  - simpl. intros Hover Hpos. apply JobFacts.calculate_grade_full; simpl.
    + exact Hpos.
    + rewrite ExtremesFacts.none_over by lia. reflexivity.
  - simpl. intros Hover. apply JobFacts.calculate_grade_none_within; simpl.
    + exact Hsum.
    + rewrite ExtremesFacts.all_over by lia. reflexivity.
Qed.

Lemma grade_extremes_witness :
  calculate_grade
    {| total_lines := 3; lines_within_limit := 3;
       files_over_limit := 0; total_files := 1 |}
  = Ok (Finite (inject_Z 100)).
Proof.
  assert (Ha : analyze_repository Examples.world
                 (Examples.checked_out
                    {[ "a.py" := Readable (Examples.pass_text 3) ]}) 0%nat
               = Ok {| total_lines := 3; lines_within_limit := 3;
                       files_over_limit := 0; total_files := 1 |})
    by (vm_compute; reflexivity).
  apply (proj1 (grade_extremes _ _ _ _ Ha)).
  - reflexivity.
  - reflexivity.
Defined.

(** X6.  Every result [process] returns carries a finite grade between 0
    and 100. *)
Theorem process_grade_in_range (w : World) (record : dict) (fs : filesystem)
  (d : dict) :
  (RepoWorker.process w record fs).1 = Ok d ->
  exists g : Q,
    d !! "grade" = Some (VFloat (Finite g)) /\ (0 <= g <= inject_Z 100)%Q.
Proof.
  rewrite WorkerFacts.process_outcome.
  unfold Spec.worker_outcome, getitem.
  destruct (record !! "ID") as [repo_id |]; [| discriminate].
  destruct (record !! "Repo") as [repo_url |]; [| discriminate].
  simpl. intros [= <-]. apply JobFacts.job_result_grade.
Qed.

Lemma process_grade_in_range_witness :
  exists g : Q,
    RepoWorker.ready_result (VInt 1) (Finite (Spec.fl (Qmake 3333 100)))
      !! "grade" = Some (VFloat (Finite g))
    /\ (0 <= g <= inject_Z 100)%Q.
Proof.
  apply (process_grade_in_range Examples.world Examples.job_two ∅).
  vm_compute. reflexivity.
Defined.

(** X7.  [count_code_lines] raises exactly when the file cannot be opened or
    the parser raises something other than [SyntaxError] and
    [UnicodeDecodeError]; in the second case the exception is the
    parser's. *)
Theorem count_code_lines_raises_iff (w : World) (fs : filesystem)
  (p : file_path) (e : exn) :
  count_code_lines w fs p = Raise e
  <-> (open_read fs p = Raise OSError /\ e = OSError)
      \/ (exists content,
            open_read fs p = Ok content
            /\ ast_parse w content = Raise e
            /\ e <> SyntaxError /\ e <> UnicodeDecodeError).
Proof.
  unfold count_code_lines.
  destruct (AnalyzerFacts.count_lines_simple_total fs p) as (n & Hn & _).
  destruct (open_read fs p) as [content | e0] eqn:Hr; simpl.
  - destruct (ast_parse w content) as [tree | e1] eqn:Hp; simpl.
    + split; [discriminate |].
      intros [[[=] _] | (c & [= <-] & Hc & _)]. congruence.
    + split.
      * intros H. right. exists content.
        destruct e1; simpl in H; try (rewrite Hn in H; discriminate);
          injection H as <-; repeat split; congruence.
      * intros [[[=] _] | (c & [= <-] & Hc & Hs & Hu)].
        rewrite Hp in Hc. injection Hc as ->.
        destruct e; simpl; congruence.
  - assert (He0 : e0 = OSError).
    { unfold open_read in Hr.
      destruct (fs !! p.1 ≫= _) as [[c |] |]; congruence. }
    subst e0. simpl. split.
    + intros [= <-]. left. auto.
    + intros [[_ ->] | (c & [=] & _)]. reflexivity.
Qed.

(** ** Scratch directories *)

Module ScratchFacts.

Import CodeAnalyzer GitClient RepoWorker.

Lemma cleanup_repo_eq w (d : scratch_dir) (fs : filesystem) :
  cleanup_repo w d fs
  = (Ok tt, if rmtree_removes w d then delete d fs else fs).
Proof.
  unfold cleanup_repo, bind, gets, modify, ret. simpl.
  destruct (fs !! d) as [t |] eqn:Hd.
  - rewrite bool_decide_eq_true_2 by eauto. reflexivity.
  - rewrite bool_decide_eq_false_2 by (intros [? ?]; congruence).
    destruct (rmtree_removes w d); [| reflexivity].
    by rewrite delete_id.
Qed.

(** The scratch area after a call of [process]. *)
Lemma process_final w record fs :
  (process w record fs).2 = fs
  \/ (process w record fs).2 = <[fresh (dom fs) := ∅]> fs
  \/ (exists t, (process w record fs).2 = <[fresh (dom fs) := t]> fs)
  \/ (process w record fs).2 = delete (fresh (dom fs)) fs.
Proof.
  destruct (record !! "ID") as [repo_id |] eqn:Hid.
  - destruct (record !! "Repo") as [repo_url |] eqn:Hurl.
    + destruct (git_clone w repo_url) as [t | e] eqn:Hg.
      * rewrite (WorkerFacts.process_cloned _ _ _ _ _ _ Hid Hurl Hg). simpl.
        destruct (rmtree_removes w _); eauto.
      * rewrite (WorkerFacts.process_clone_failed _ _ _ _ _ _ Hid Hurl Hg).
        auto.
    + left. unfold process, bind, lift, getitem. rewrite Hid, Hurl. reflexivity.
  - left. unfold process, bind, lift, getitem. rewrite Hid. reflexivity.
Qed.

Lemma count_code_lines_world w1 w2 fs p :
  (forall content, ast_parse w1 content = ast_parse w2 content) ->
  count_code_lines w1 fs p = count_code_lines w2 fs p.
Proof.
  intros Hparse. unfold count_code_lines.
  destruct (open_read fs p) as [content | e]; simpl; [| reflexivity].
  rewrite (Hparse content). reflexivity.
Qed.

Lemma analyze_repository_world w1 w2 fs repo_dir :
  (forall content, ast_parse w1 content = ast_parse w2 content) ->
  analyze_repository w1 fs repo_dir = analyze_repository w2 fs repo_dir.
Proof.
  intros Hparse. unfold analyze_repository.
  assert (Hloop : forall files acc,
    fold_left (analyze_step w1 fs) files acc
    = fold_left (analyze_step w2 fs) files acc).
  { induction files as [| p files IH]; intros acc; [reflexivity |].
    cbn [fold_left]. rewrite IH. f_equal. unfold analyze_step.
    rewrite (count_code_lines_world w1 w2 fs p Hparse). reflexivity. }
  rewrite Hloop. reflexivity.
Qed.

Lemma worker_outcome_world w1 w2 record :
  (forall repo_url, git_clone w1 repo_url = git_clone w2 repo_url) ->
  (forall content, ast_parse w1 content = ast_parse w2 content) ->
  Spec.worker_outcome w1 record = Spec.worker_outcome w2 record.
Proof.
  intros Hgit Hparse. unfold Spec.worker_outcome.
  destruct (getitem record "ID") as [repo_id |]; [| reflexivity].
  destruct (getitem record "Repo") as [repo_url |]; [| reflexivity].
  simpl. unfold Spec.job_result, Spec.analyze_tree.
  rewrite (Hgit repo_url).
  destruct (git_clone w2 repo_url) as [t |]; [| reflexivity].
  rewrite (analyze_repository_world w1 w2 _ _ Hparse). reflexivity.
Qed.

Lemma submit_all_raises w repos fs :
  (exists repo : dict, repo ∈ repos /\ repo !! "ID" = None) ->
  exists fs', Agent2.submit_all w repos fs = (Raise KeyError, fs').
Proof.
  intros (bad & Hin & Hbad). revert fs.
  induction repos as [| repo repos IH]; intros fs.
  - by apply elem_of_nil in Hin.
  - cbn [Agent2.submit_all]. unfold bind at 1, Agent2.submit.
    destruct (process w repo fs) as [r fs1].
    unfold bind at 1, lift, getitem.
    destruct (repo !! "ID") as [repo_id |] eqn:Hid.
    + apply elem_of_cons in Hin as [-> | Hin]; [congruence |].
      destruct (IH Hin fs1) as [fs2 Hrest].
      unfold bind at 1. rewrite Hrest. eauto.
    + eauto.
Qed.

End ScratchFacts.

(** X8.  A call of [process] leaves every scratch directory that exists when
    it starts as it is, and adds at most the one directory it made. *)
Theorem process_keeps_other_directories (w : World) (record : dict)
  (fs : filesystem) :
  (forall d : scratch_dir,
     d ∈ dom fs -> (RepoWorker.process w record fs).2 !! d = fs !! d)
  /\ dom (RepoWorker.process w record fs).2 ⊆ dom fs ∪ {[ fresh (dom fs) ]}.
Proof.
  pose proof (is_fresh (dom fs)) as Hfresh.
  destruct (ScratchFacts.process_final w record fs)
    as [-> | [-> | [[t ->] | ->]]].
  - split; [reflexivity | set_solver].
  - split; [| rewrite dom_insert; set_solver].
    intros d Hd. apply lookup_insert_ne. set_solver.
  - split; [| rewrite dom_insert; set_solver].
    intros d Hd. apply lookup_insert_ne. set_solver.
  - split; [| rewrite dom_delete; set_solver].
    intros d Hd. apply lookup_delete_ne. set_solver.
Qed.

(** X9.  After a successful checkout the scratch directory is removed before
    [process] returns, whether the analysis returns or raises: when [rmtree]
    manages to delete, the scratch area is what it was before the call. *)
Theorem process_restores_scratch_area (w : World) (record : dict)
  (repo_id repo_url : value) (t : tree) (fs : filesystem) :
  record !! "ID" = Some repo_id ->
  record !! "Repo" = Some repo_url ->
  git_clone w repo_url = Ok t ->
  rmtree_removes w (fresh (dom fs)) = true ->
  (RepoWorker.process w record fs).2 = fs.
Proof.
  intros Hid Hurl Hg Hrm.
  rewrite (WorkerFacts.process_cloned _ _ _ _ _ _ Hid Hurl Hg), Hrm. simpl.
  apply delete_id, not_elem_of_dom, is_fresh.
Qed.

Lemma process_restores_scratch_area_witness :
  (RepoWorker.process Examples.world Examples.job_unreadable
     {[ 0%nat := Examples.two_files ]}).2
  = {[ 0%nat := Examples.two_files ]}.
Proof.
  apply (process_restores_scratch_area Examples.world Examples.job_unreadable
           (VInt 4) (VStr "https://example.org/unreadable.git")
           Examples.unreadable_file).
  - vm_compute. reflexivity.
  - vm_compute. reflexivity.
  - vm_compute. reflexivity.
  - reflexivity.
Defined.

(** X10.  The result of [process] depends on the record, on what the
    checkout yields and on the parser only: not on the scratch area the call
    starts from, and not on whether the cleanup manages to delete. *)
Theorem process_result_independent_of_cleanup (w1 w2 : World) (record : dict)
  (fs1 fs2 : filesystem) :
  (forall repo_url, git_clone w1 repo_url = git_clone w2 repo_url) ->
  (forall content, ast_parse w1 content = ast_parse w2 content) ->
  (RepoWorker.process w1 record fs1).1 = (RepoWorker.process w2 record fs2).1.
Proof.
  intros Hgit Hparse. rewrite !WorkerFacts.process_outcome.
  apply ScratchFacts.worker_outcome_world; assumption.
Qed.

Lemma process_result_independent_of_cleanup_witness :
  (RepoWorker.process Examples.world Examples.job_two ∅).1
  = (RepoWorker.process
       {| git_clone := Examples.remote;
          ast_parse := Examples.parse;
          rmtree_removes := fun _ => false;
          ensure_directories := Ok tt |}
       Examples.job_two {[ 0%nat := Examples.boundary_files ]}).1.
Proof.
  apply (process_result_independent_of_cleanup Examples.world).
  - intros repo_url. reflexivity.
  - intros content. reflexivity.
Defined.

(** X11.  [cleanup_repo] never raises; it leaves every other directory as it
    is; when [rmtree] manages to delete, the directory is gone afterwards;
    and a second call changes nothing. *)
Theorem cleanup_repo_spec (w : World) (repo_dir : scratch_dir)
  (fs : filesystem) :
  (GitClient.cleanup_repo w repo_dir fs).1 = Ok tt
  /\ (forall d : scratch_dir,
        d <> repo_dir ->
        (GitClient.cleanup_repo w repo_dir fs).2 !! d = fs !! d)
  /\ (rmtree_removes w repo_dir = true ->
      (GitClient.cleanup_repo w repo_dir fs).2 !! repo_dir = None)
  /\ GitClient.cleanup_repo w repo_dir (GitClient.cleanup_repo w repo_dir fs).2
     = GitClient.cleanup_repo w repo_dir fs.
Proof.
  rewrite !ScratchFacts.cleanup_repo_eq. simpl.
  destruct (rmtree_removes w repo_dir) eqn:Hrm.
  - split; [reflexivity |]. split; [| split].
    + intros d Hd. by apply lookup_delete_ne.
    + intros _. apply lookup_delete_eq.
    + by rewrite delete_delete_eq.
  - split; [reflexivity |]. split; [reflexivity |]. split; [discriminate |].
    reflexivity.
Qed.

(** X12.  A successful [clone_repo] followed by [cleanup_repo] on the path it
    returned leaves the scratch area as it was, when [rmtree] manages to
    delete. *)
Theorem clone_then_cleanup (w : World) (repo_url : value) (t : tree)
  (fs : filesystem) :
  git_clone w repo_url = Ok t ->
  rmtree_removes w (fresh (dom fs)) = true ->
  bind (GitClient.clone_repo w repo_url None) (GitClient.cleanup_repo w) fs
  = (Ok tt, fs).
Proof.
  intros Hg Hrm. unfold bind.
  rewrite (WorkerFacts.clone_repo_ok w repo_url fs t Hg).
  rewrite ScratchFacts.cleanup_repo_eq, Hrm.
  rewrite delete_insert_eq, delete_id by apply not_elem_of_dom, is_fresh.
  reflexivity.
Qed.

Lemma clone_then_cleanup_witness :
  bind (GitClient.clone_repo Examples.world
          (VStr "https://example.org/two.git") None)
    (GitClient.cleanup_repo Examples.world) ∅
  = (Ok tt, ∅).
Proof.
  apply (clone_then_cleanup Examples.world
           (VStr "https://example.org/two.git") Examples.two_files).
  - vm_compute. reflexivity.
  - reflexivity.
Defined.

(** X13.  The pool has two ways to abort: [ensure_directories] raises, before
    any job is submitted and with the scratch area untouched; or a record has
    no ["ID"], and then the pool raises [KeyError] and returns no result at
    all, also for the jobs that ran. *)
Theorem pool_aborts (w : World)
  (as_completed : list (Agent2.future * value) -> list (Agent2.future * value))
  (repos : list dict) (fs : filesystem) :
  (forall e, ensure_directories w = Raise e ->
             Agent2._process_parallel w as_completed repos fs = (Raise e, fs))
  /\ (ensure_directories w = Ok tt ->
      (exists repo : dict, repo ∈ repos /\ repo !! "ID" = None) ->
      exists fs',
        Agent2._process_parallel w as_completed repos fs = (Raise KeyError, fs')).
Proof.
  split.
  - intros e He. unfold Agent2._process_parallel, bind, lift.
    rewrite He. reflexivity.
  - intros Hens Hbad.
    destruct (ScratchFacts.submit_all_raises w repos fs Hbad) as [fs' Hs].
    exists fs'. unfold Agent2._process_parallel, bind, lift.
    rewrite Hens, Hs. reflexivity.
Qed.

Lemma pool_aborts_witness :
  exists fs',
    Agent2._process_parallel Examples.world (fun l => l)
      [Examples.job_two; {[ "Repo" := VStr "https://example.org/two.git" ]}] ∅
    = (Raise KeyError, fs').
Proof.
  apply (pool_aborts Examples.world (fun l => l)).
  - reflexivity.
  - exists {[ "Repo" := VStr "https://example.org/two.git" ]}.
    split; [set_solver | vm_compute; reflexivity].
Defined.

(** X14.  A record that has an ["ID"] but no ["Repo"] makes its worker raise
    [KeyError]; the pool catches it and records
    [{ID, grade 0.0, Status "error"}] for that job. *)
Theorem pool_records_worker_exception (w : World)
  (as_completed : list (Agent2.future * value) -> list (Agent2.future * value))
  (repos : list dict) (fs : filesystem) (repo : dict) (repo_id : value) :
  (forall l, as_completed l ≡ₚ l) ->
  ensure_directories w = Ok tt ->
  Forall (fun repo : dict => is_Some (repo !! "ID")) repos ->
  repo ∈ repos ->
  repo !! "ID" = Some repo_id ->
  repo !! "Repo" = None ->
  RepoWorker.process w repo fs = (Raise KeyError, fs)
  /\ exists results fs',
       Agent2._process_parallel w as_completed repos fs = (Ok results, fs')
       /\ RepoWorker.error_result repo_id ∈ results.
Proof.
  intros Hperm Hens Hids Hin Hid Hurl. split.
  - unfold RepoWorker.process, bind, lift, getitem. rewrite Hid, Hurl.
    reflexivity.
  - destruct (PoolFacts.process_parallel_results w as_completed repos fs
                Hperm Hens Hids) as (results & fs' & Hrun & Hres).
    exists results, fs'. split; [exact Hrun |].
    rewrite Hres. apply list_elem_of_fmap. exists repo. split; [| exact Hin].
    unfold Spec.terminal. rewrite Hid, Hurl. reflexivity.
Qed.

Lemma pool_records_worker_exception_witness :
  exists results fs',
    Agent2._process_parallel Examples.world (fun l => l)
      [Examples.job_two; {[ "ID" := VInt 7 ]}] ∅ = (Ok results, fs')
    /\ RepoWorker.error_result (VInt 7) ∈ results.
Proof.
  apply (pool_records_worker_exception Examples.world (fun l => l)
           [Examples.job_two; {[ "ID" := VInt 7 ]}] ∅ {[ "ID" := VInt 7 ]}
           (VInt 7)).
  - intros l. reflexivity.
  - reflexivity.
  - repeat constructor; eexists; vm_compute; reflexivity.
  - set_solver.
  - vm_compute. reflexivity.
  - vm_compute. reflexivity.
Defined.

(** * Properties of the spreadsheet layer and of [Agent2.run] *)

Module ExcelFacts.

Import ExcelHandler.

Lemma cell_is_spec (s : string) (cell : option value) :
  Is_true (cell_is s cell) <-> cell = Some (VStr s).
Proof.
  unfold cell_is. destruct cell as [[| z | f | s'] |]; simpl; try (split; [tauto | discriminate]).
  rewrite Is_true_true, String.eqb_eq. split; congruence.
Qed.

(** Outcome of [atomic_write] in terms of the two things that can fail. *)
Lemma atomic_write_eq (o : Office) (df : DataFrame) (file_path : string)
  (files : data_files) :
  atomic_write o df file_path files
  = match to_excel_raises o df with
    | Some e => (Raise e, files)
    | None =>
        match replace_raises o (fresh (dom files)) file_path with
        | Some e => (Raise e, files)
        | None => (Ok tt, <[file_path := Workbook df]> files)
        end
    end.
Proof.
  pose proof (is_fresh (dom files)) as Hfresh.
  apply not_elem_of_dom in Hfresh.
  unfold atomic_write, bind at 1, named_temporary_file.
  set (temp := fresh (dom files)) in *.
  unfold try_except_M, bind at 1, to_excel.
  destruct (to_excel_raises o df) as [e |]; simpl.
  - unfold bind, gets, unlink, modify, raise. simpl.
    rewrite bool_decide_eq_true_2 by (rewrite lookup_insert_eq; eauto).
    by rewrite delete_insert_eq, delete_id.
  - unfold modify, replace. simpl.
    destruct (replace_raises o temp file_path) as [e |]; simpl.
    + unfold bind, gets, unlink, modify, raise. simpl.
      rewrite bool_decide_eq_true_2 by (rewrite lookup_insert_eq; eauto).
      by rewrite !delete_insert_eq, delete_id.
    + rewrite lookup_insert_eq.
      by rewrite !delete_insert_eq, delete_id.
Qed.

Lemma read_missing o (files : data_files) file_path status usecols :
  files !! file_path = None ->
  read_with_status o files file_path status usecols = Ok empty_frame.
Proof.
  intros Hnone. unfold read_with_status.
  rewrite bool_decide_eq_false_2 by (intros [? ?]; congruence). reflexivity.
Qed.

Lemma read_status o (files : data_files) file_path status df :
  files !! file_path = Some (Workbook df) ->
  "Status" ∈ columns df ->
  read_with_status o files file_path status None
  = Ok (where_eq df "Status" (Status.str status)).
Proof.
  intros Hbook Hcol. unfold read_with_status, read_excel. rewrite Hbook.
  rewrite bool_decide_eq_true_2 by eauto. simpl.
  by rewrite bool_decide_eq_true_2.
Qed.

Lemma read_whole o (files : data_files) file_path status df :
  files !! file_path = Some (Workbook df) ->
  "Status" ∉ columns df ->
  read_with_status o files file_path status None = Ok df.
Proof.
  intros Hbook Hcol. unfold read_with_status, read_excel. rewrite Hbook.
  rewrite bool_decide_eq_true_2 by eauto. simpl.
  by rewrite bool_decide_eq_false_2.
Qed.

Lemma read_other o (files : data_files) file_path status usecols :
  files !! file_path = Some Other ->
  read_with_status o files file_path status usecols
  = Raise (not_a_workbook o).
Proof.
  intros Hbook. unfold read_with_status, read_excel. rewrite Hbook.
  rewrite bool_decide_eq_true_2 by eauto. reflexivity.
Qed.

Lemma where_eq_rows (df : DataFrame) (column s : string) (row : dict) :
  row ∈ rows (where_eq df column s)
  <-> row ∈ rows df /\ row !! column = Some (VStr s).
Proof.
  simpl. rewrite list_elem_of_filter, cell_is_spec. tauto.
Qed.

Lemma usecols_present (df : DataFrame) (cols : list string) :
  Forall (fun c => c ∈ columns df) cols ->
  forallb (fun c => bool_decide (c ∈ columns df)) cols = true.
Proof.
  induction 1 as [| c cols Hc _ IH]; [reflexivity |].
  simpl. by rewrite (bool_decide_eq_true_2 _ Hc), IH.
Qed.

Lemma usecols_absent (df : DataFrame) (cols : list string) (c : string) :
  c ∈ cols -> c ∉ columns df ->
  forallb (fun c => bool_decide (c ∈ columns df)) cols = false.
Proof.
  intros Hin Hc. induction cols as [| c' cols IH]; [by apply elem_of_nil in Hin |].
  simpl. apply elem_of_cons in Hin as [<- | Hin].
  - by rewrite (bool_decide_eq_false_2 _ Hc).
  - rewrite (IH Hin). apply andb_false_r.
Qed.

(** No row of another status reaches a caller who sees the column. *)
Lemma read_status_rows o (files : data_files) file_path status usecols out :
  read_with_status o files file_path status usecols = Ok out ->
  "Status" ∈ columns out ->
  forall row : dict,
    row ∈ rows out -> row !! "Status" = Some (VStr (Status.str status)).
Proof.
  unfold read_with_status.
  destruct (bool_decide (is_Some (files !! file_path))).
  - destruct (read_excel o files file_path usecols) as [df |]; simpl;
      [| discriminate].
    destruct (bool_decide ("Status" ∈ columns df)) eqn:Hcol.
    + intros [= <-] _ row Hrow. by apply where_eq_rows in Hrow as [_ Hrow].
    + intros [= <-] Hin. apply bool_decide_eq_false in Hcol. contradiction.
  - intros [= <-] Hin. simpl in Hin. set_solver.
Qed.

Lemma read_unfiltered o (files : data_files) file_path status df cols :
  files !! file_path = Some (Workbook df) ->
  "Status" ∉ cols ->
  Forall (fun c => c ∈ columns df) cols ->
  read_with_status o files file_path status (Some cols)
  = Ok (restrict df cols).
Proof.
  intros Hbook Hstatus Hcols. unfold read_with_status, read_excel.
  rewrite Hbook, bool_decide_eq_true_2 by eauto.
  rewrite (usecols_present df cols Hcols). simpl.
  rewrite bool_decide_eq_false_2; [reflexivity |].
  rewrite elem_of_list_to_set. exact Hstatus.
Qed.

Lemma read_usecols_missing o (files : data_files) file_path status df cols c :
  files !! file_path = Some (Workbook df) ->
  c ∈ cols -> c ∉ columns df ->
  read_with_status o files file_path status (Some cols) = Raise ValueError.
Proof.
  intros Hbook Hin Hc. unfold read_with_status, read_excel.
  rewrite Hbook, bool_decide_eq_true_2 by eauto.
  rewrite (usecols_absent df cols c Hin Hc). reflexivity.
Qed.

End ExcelFacts.

(** X15.  [read_with_status], for any [columns] argument.  A file that does
    not exist reads as the empty table.  In a table it returns, if the
    [Status] column is there then every row has the status asked for.  With
    the default [columns=None] and a [Status] column in the workbook, the
    rows returned are the rows of that status, in their order and with all
    columns.  With a [columns] list that leaves [Status] out, the filter is
    skipped: the rows of every status are returned, restricted to the listed
    columns.  A listed column the workbook does not have raises
    [ValueError]. *)
Theorem read_with_status_spec (o : Office) (files : data_files)
  (file_path : string) (status : Status.t) (usecols : option (list string)) :
  (files !! file_path = None ->
   ExcelHandler.read_with_status o files file_path status usecols
   = Ok empty_frame)
  /\ (forall out,
        ExcelHandler.read_with_status o files file_path status usecols
        = Ok out ->
        "Status" ∈ columns out ->
        forall row : dict,
          row ∈ rows out ->
          row !! "Status" = Some (VStr (Status.str status)))
  /\ (forall df,
        files !! file_path = Some (Workbook df) ->
        "Status" ∈ columns df ->
        exists out,
          ExcelHandler.read_with_status o files file_path status None = Ok out
          /\ columns out = columns df
          /\ rows out `sublist_of` rows df
          /\ forall row : dict,
               row ∈ rows out
               <-> row ∈ rows df
                   /\ row !! "Status" = Some (VStr (Status.str status)))
  /\ (forall df cols,
        files !! file_path = Some (Workbook df) ->
        "Status" ∉ cols ->
        Forall (fun c => c ∈ columns df) cols ->
        ExcelHandler.read_with_status o files file_path status (Some cols)
        = Ok (restrict df cols))
  /\ (forall df cols c,
        files !! file_path = Some (Workbook df) ->
        c ∈ cols -> c ∉ columns df ->
        ExcelHandler.read_with_status o files file_path status (Some cols)
        = Raise ValueError).
Proof.
  split; [apply ExcelFacts.read_missing |].
  split; [apply ExcelFacts.read_status_rows |].
  split; [| split;
            [apply ExcelFacts.read_unfiltered
            | apply ExcelFacts.read_usecols_missing]].
  intros df Hbook Hcol. eexists.
  split; [exact (ExcelFacts.read_status o files file_path status df Hbook Hcol) |].
  split; [reflexivity |]. split; [apply sublist_filter |].
  intros row. apply ExcelFacts.where_eq_rows.
Qed.

(** The filter skipped: a pending submission is returned by a read for the
    ready ones that asks for the columns ["ID"] and ["Repo"] only. *)
Example read_with_status_without_status_column :
  match ExcelHandler.read_with_status RunExamples.office
          (Runner.files (RunExamples.disk_with RunExamples.submissions))
          (Runner.excel_agent1 RunExamples.config) Status.READY
          (Some ["ID"; "Repo"]) with
  | Ok out => map (fun row : dict => row !! "ID") (rows out)
              = [Some (VInt 1); Some (VInt 2); Some (VInt 3)]
  | Raise _ => False
  end.
Proof. vm_compute. reflexivity. Qed.

(** X16.  [atomic_write] is all or nothing: either it returns and the
    destination holds the table, or it raises and the data directory is what
    it was, the destination untouched; in both cases no temporary file is
    left. *)
Theorem atomic_write_all_or_nothing (o : Office) (df : DataFrame)
  (file_path : string) (files : data_files) :
  ExcelHandler.atomic_write o df file_path files
  = (Ok tt, <[file_path := Workbook df]> files)
  \/ exists e, ExcelHandler.atomic_write o df file_path files = (Raise e, files).
Proof.
  rewrite ExcelFacts.atomic_write_eq.
  destruct (to_excel_raises o df) as [e |]; [eauto |].
  destruct (replace_raises o _ file_path) as [e |]; eauto.
Qed.

Module RunFacts.

Import Runner.

Lemma reraise {S A} (c : M S A) (s : S) :
  try_except_M c (fun e => Some (raise e)) s = c s.
Proof.
  unfold try_except_M, raise. destruct (c s) as [[a | e] s1]; reflexivity.
Qed.



Lemma records_of_missing (df : DataFrame) :
  "ID" ∉ columns df \/ "Repo" ∉ columns df ->
  records_of df ["ID"; "Repo"] = Raise KeyError.
Proof.
  intros H. unfold records_of. simpl.
  destruct H as [H | H]; rewrite (bool_decide_eq_false_2 _ H);
    [| destruct (bool_decide _)]; reflexivity.
Qed.

Lemma empty_false (df : DataFrame) (column : string) :
  column ∈ columns df -> rows df <> [] -> empty df = false.
Proof.
  intros Hcol Hrows. unfold empty. apply orb_false_iff. split.
  - destruct (rows df); [congruence | reflexivity].
  - apply Nat.eqb_neq. intros Hsize. apply size_empty_inv in Hsize.
    set_solver.
Qed.

(** The body of [run] once the input table is known and not empty. *)
Lemma run_body w o config as_completed d df_input :
  ExcelHandler.read_with_status o (files d) (excel_agent1 config) Status.READY
    None
  = Ok df_input ->
  empty df_input = false ->
  run w o config as_completed d
  = bind (lift (records_of df_input ["ID"; "Repo"]))
      (fun repos =>
         bind (on_scratch (Agent2._process_parallel w as_completed repos))
           (fun results => on_files (_save_results o config results))) d.
Proof.
  intros Hread Hempty. unfold run. rewrite reraise.
  unfold bind at 1, read_files. rewrite Hread, Hempty. reflexivity.
Qed.

Lemma run_nothing w o config as_completed d df_input :
  ExcelHandler.read_with_status o (files d) (excel_agent1 config) Status.READY
    None
  = Ok df_input ->
  empty df_input = true ->
  run w o config as_completed d = (Ok tt, d).
Proof.
  intros Hread Hempty. unfold run. rewrite reraise.
  unfold bind at 1, read_files. rewrite Hread, Hempty. reflexivity.
Qed.

End RunFacts.

(** X17.  [Agent2.run] does nothing (no job, no file written, no exception)
    when the input workbook does not exist, and when it has a [Status] column
    and no row whose status is ["ready"]. *)
Theorem run_without_ready_rows (w : World) (o : Office)
  (config : Runner.Config)
  (as_completed : list (Agent2.future * value) -> list (Agent2.future * value))
  (d : Runner.disk) :
  (Runner.files d !! Runner.excel_agent1 config = None ->
   Runner.run w o config as_completed d = (Ok tt, d))
  /\ (forall df,
        Runner.files d !! Runner.excel_agent1 config = Some (Workbook df) ->
        "Status" ∈ columns df ->
        (forall row : dict,
           row ∈ rows df -> row !! "Status" <> Some (VStr "ready")) ->
        Runner.run w o config as_completed d = (Ok tt, d)).
Proof.
  split.
  - intros Hnone. apply (RunFacts.run_nothing _ _ _ _ _ empty_frame).
    + by apply ExcelFacts.read_missing.
    + reflexivity.
  - intros df Hbook Hcol Hnone.
    apply (RunFacts.run_nothing _ _ _ _ _
             (where_eq df "Status" (Status.str Status.READY))).
    + by apply ExcelFacts.read_status.
    + unfold empty.
      destruct (rows (where_eq df "Status" (Status.str Status.READY)))
        as [| row l] eqn:Hout; [reflexivity |].
      exfalso.
      destruct (proj1 (ExcelFacts.where_eq_rows df "Status"
                         (Status.str Status.READY) row)) as [Hin Hst].
      { rewrite Hout. by left. }
      exact (Hnone row Hin Hst).
Qed.

(** X18.  When the input workbook has ready rows but lacks the column ["ID"]
    or ["Repo"], [Agent2.run] raises [KeyError] before any job runs; nothing
    is written. *)
Theorem run_missing_column (w : World) (o : Office) (config : Runner.Config)
  (as_completed : list (Agent2.future * value) -> list (Agent2.future * value))
  (d : Runner.disk) (df : DataFrame) :
  Runner.files d !! Runner.excel_agent1 config = Some (Workbook df) ->
  "Status" ∈ columns df ->
  rows (where_eq df "Status" (Status.str Status.READY)) <> [] ->
  "ID" ∉ columns df \/ "Repo" ∉ columns df ->
  Runner.run w o config as_completed d = (Raise KeyError, d).
Proof.
  intros Hbook Hcol Hready Hmissing.
  rewrite (RunFacts.run_body _ _ _ _ _
             (where_eq df "Status" (Status.str Status.READY))).
  - unfold bind, lift.
    rewrite RunFacts.records_of_missing by exact Hmissing. reflexivity.
  - by apply ExcelFacts.read_status.
  - by apply (RunFacts.empty_false _ "Status").
Qed.


Lemma run_missing_column_witness :
  Runner.run Examples.world RunExamples.office RunExamples.config (fun l => l)
    (RunExamples.disk_with RunExamples.anonymous)
  = (Raise KeyError, RunExamples.disk_with RunExamples.anonymous).
Proof.
  apply (run_missing_column Examples.world RunExamples.office
           RunExamples.config (fun l => l)
           (RunExamples.disk_with RunExamples.anonymous) RunExamples.anonymous).
  - vm_compute. reflexivity.
  - apply (bool_decide_unpack _). vm_compute. exact I.
  - intros H. vm_compute in H. discriminate.
  - left. apply (bool_decide_unpack _). vm_compute. exact I.
Defined.


(** What the examples above do, run: the two ready submissions are analysed,
    the pending one is not, and the output workbook holds their results. *)
Example run_on_submissions :
  match Runner.run Examples.world RunExamples.office RunExamples.config
          (fun l => l) (RunExamples.disk_with RunExamples.submissions) with
  | (Ok tt, d') =>
      match Runner.files d' !! Runner.excel_agent2 RunExamples.config with
      | Some (Workbook out) =>
          rows out
          = [RepoWorker.ready_result (VInt 1)
               (Finite (Spec.fl (Qmake 3333 100)));
             RepoWorker.error_result (VInt 2)]
      | _ => False
      end
  | _ => False
  end.
Proof. vm_compute. reflexivity. Qed.

(** ** The orchestrator *)

Module PipelineFacts.

Import Pipeline.

Lemma bind_ret_tt {S A} (c : M S A) (s : S) :
  bind (ret tt) (fun _ => c) s = c s.
Proof. reflexivity. Qed.

Lemma bind_assoc {S A B C} (c : M S A) (k : A -> M S B) (k' : B -> M S C)
  (s : S) :
  bind (bind c k) k' s = bind c (fun a => bind (k a) k') s.
Proof. unfold bind. destruct (c s) as [[a | e] s1]; reflexivity. Qed.

Lemma bind_ext {S A B} (c : M S A) (k k' : A -> M S B) (s : S) :
  (forall a s1, k a s1 = k' a s1) -> bind c k s = bind c k' s.
Proof.
  intros H. unfold bind. destruct (c s) as [[a | e] s1]; [apply H | reflexivity].
Qed.

Lemma run_agents_app {S} (p : Pipeline S) (nums1 nums2 : list Z) (s : S) :
  run_agents p (nums1 ++ nums2) s
  = bind (run_agents p nums1) (fun _ => run_agents p nums2) s.
Proof.
  revert s. induction nums1 as [| num nums1 IH]; intros s.
  - reflexivity.
  - cbn [run_agents app]. rewrite bind_assoc. apply bind_ext.
    intros _ s1. apply IH.
Qed.

End PipelineFacts.

(** X20.  [run_agents] skips the numbers outside 1..4: it behaves as on the
    list without them, and a list of such numbers alone runs no agent. *)
Theorem run_agents_ignores_invalid {S} (p : Pipeline.Pipeline S)
  (agent_numbers : list Z) (s : S) :
  Pipeline.run_agents p agent_numbers s
  = Pipeline.run_agents p
      (filter (fun num => (1 <= num <= 4)%Z) agent_numbers) s.
Proof.
  revert s. induction agent_numbers as [| num nums IH]; intros s.
  - reflexivity.
  - destruct (decide (1 <= num <= 4)%Z) as [Hin | Hout].
    + rewrite filter_cons_True by assumption. cbn [Pipeline.run_agents].
      apply PipelineFacts.bind_ext. intros _ s1. apply IH.
    + rewrite filter_cons_False by assumption. cbn [Pipeline.run_agents].
      replace ((1 <=? num) && (num <=? 4))%Z with false
        by (symmetry; apply andb_false_iff; lia).
      rewrite PipelineFacts.bind_ret_tt. apply IH.
Qed.

(** X21.  Agents run in the order asked for, and the first failure ends the
    run: running a list of numbers is running a first part and, when that
    returns, the rest; when the first part raises, the run raises the same
    exception and no later agent runs.  [run_all] is [run_agents] on
    [[1; 2; 3; 4]]. *)
Theorem run_agents_sequence {S} (p : Pipeline.Pipeline S)
  (nums1 nums2 : list Z) (s : S) :
  Pipeline.run_agents p (nums1 ++ nums2) s
  = bind (Pipeline.run_agents p nums1)
      (fun _ => Pipeline.run_agents p nums2) s
  /\ (forall e s',
        Pipeline.run_agents p nums1 s = (Raise e, s') ->
        Pipeline.run_agents p (nums1 ++ nums2) s = (Raise e, s'))
  /\ Pipeline.run_all p s = Pipeline.run_agents p [1; 2; 3; 4]%Z s.
Proof.
  split; [apply PipelineFacts.run_agents_app |]. split; [| reflexivity].
  intros e s' Hfail. rewrite PipelineFacts.run_agents_app.
  unfold bind. rewrite Hfail. reflexivity.
Qed.

Example pipeline_stops_at_failure :
  Pipeline.run_all RunExamples.logging_pipeline [] = (Raise ValueError, [1; 2]%nat)
  /\ Pipeline.run_agents RunExamples.logging_pipeline [4; 0; 7; 1]%Z []
     = (Ok tt, [4; 1]%nat).
Proof. split; reflexivity. Qed.

(** ** The table of results *)

Module TableFacts.

Lemma pad_id (r : dict) (cols : gset string) :
  dom r = cols -> r ∪ gset_to_gmap (VFloat NaN) cols = r.
Proof.
  intros Hdom. apply map_eq. intros key.
  destruct (r !! key) as [v |] eqn:Hr.
  - by apply lookup_union_Some_l.
  - apply lookup_union_None. split; [exact Hr |].
    apply lookup_gset_to_gmap_None. rewrite <- Hdom. by apply not_elem_of_dom.
Qed.

Lemma union_same (cols : gset string) (Xs : list (gset string)) :
  Xs <> [] -> Forall (fun X => X = cols) Xs -> ⋃ Xs = cols.
Proof.
  intros Hne Hall. induction Hall as [| X Xs -> _ IH]; [congruence |].
  simpl. destruct Xs as [| Y Xs].
  - simpl. set_solver.
  - rewrite IH by discriminate. set_solver.
Qed.

Lemma pad_all (cols : gset string) (records : list dict) :
  Forall (fun r : dict => dom r = cols) records ->
  map (fun r : dict => r ∪ gset_to_gmap (VFloat NaN) cols) records = records.
Proof.
  induction 1 as [| r records Hr _ IH]; [reflexivity |].
  simpl. by rewrite (pad_id r cols Hr), IH.
Qed.

Lemma of_records_uniform (cols : gset string) (records : list dict) :
  records <> [] ->
  Forall (fun r : dict => dom r = cols) records ->
  of_records records = {| columns := cols; rows := records |}.
Proof.
  intros Hne Hall. unfold of_records.
  assert (Hcols : ⋃ (dom <$> records) = cols).
  { apply union_same.
    - destruct records; [congruence | discriminate].
    - apply Forall_fmap. exact Hall. }
  rewrite Hcols, (pad_all cols records Hall). reflexivity.
Qed.

Lemma result_dom (d : dict) (repo_id : value) :
  (exists grade, d = RepoWorker.ready_result repo_id grade)
  \/ d = RepoWorker.error_result repo_id ->
  dom d = {[ "ID"; "grade"; "Status" ]}.
Proof.
  intros [[grade ->] | ->];
    unfold RepoWorker.ready_result, RepoWorker.error_result;
    rewrite !dom_insert_L, dom_singleton_L; set_solver.
Qed.

Lemma terminal_dom w (repo : dict) :
  is_Some (repo !! "ID") ->
  dom (Spec.terminal w repo) = {[ "ID"; "grade"; "Status" ]}.
Proof.
  intros [repo_id Hid]. unfold Spec.terminal. rewrite Hid.
  destruct (repo !! "Repo") as [repo_url |].
  - apply (result_dom _ repo_id), WorkerFacts.job_result_cases.
  - apply (result_dom _ repo_id). by right.
Qed.

End TableFacts.

(** X22.  For a job list that is not empty, the table [_save_results] builds
    from the pool's results has the three columns ["ID"], ["grade"] and
    ["Status"], and its rows are the results themselves, one for each job,
    no cell missing. *)
Theorem pool_results_table (w : World)
  (as_completed : list (Agent2.future * value) -> list (Agent2.future * value))
  (repos : list dict) (fs : filesystem) :
  (forall l, as_completed l ≡ₚ l) ->
  ensure_directories w = Ok tt ->
  Forall (fun repo : dict => is_Some (repo !! "ID")) repos ->
  repos <> [] ->
  exists (results : list dict) (fs' : filesystem),
    Agent2._process_parallel w as_completed repos fs = (Ok results, fs')
    /\ of_records results
       = {| columns := {[ "ID"; "grade"; "Status" ]}; rows := results |}.
Proof.
  intros Hperm Hens Hids Hne.
  destruct (PoolFacts.process_parallel_results w as_completed repos fs
              Hperm Hens Hids) as (results & fs' & Hrun & Hres).
  exists results, fs'. split; [exact Hrun |].
  apply TableFacts.of_records_uniform.
  - intros ->. apply Permutation_length in Hres. rewrite length_map in Hres.
    destruct repos; [congruence | discriminate].
  - rewrite Hres. apply Forall_fmap.
    eapply Forall_impl; [exact Hids |].
    intros repo Hid. simpl. by apply TableFacts.terminal_dom.
Qed.

Lemma pool_results_table_witness :
  exists (results : list dict) (fs' : filesystem),
    Agent2._process_parallel Examples.world (fun l => l)
      [Examples.job_two; Examples.job_slow] ∅ = (Ok results, fs')
    /\ of_records results
       = {| columns := {[ "ID"; "grade"; "Status" ]}; rows := results |}.
Proof.
  apply (pool_results_table Examples.world (fun l => l)
           [Examples.job_two; Examples.job_slow] ∅).
  - intros l. reflexivity.
  - reflexivity.
  - repeat constructor; eexists; vm_compute; reflexivity.
  - discriminate.
Defined.

Module MetricsFacts.

Local Open Scope Z_scope.

Lemma split_counts (counts : list Z) :
  Spec.sum counts
  = Spec.sum (filter (fun c => c <= Spec.limit) counts)
    + Spec.sum (filter (fun c => Spec.limit < c) counts)
  /\ Z.of_nat (length counts)
     = Z.of_nat (length (filter (fun c => c <= Spec.limit) counts))
       + Z.of_nat (length (filter (fun c => Spec.limit < c) counts))
  /\ Spec.sum (filter (fun c => c <= Spec.limit) counts)
     <= 150 * Z.of_nat (length (filter (fun c => c <= Spec.limit) counts))
  /\ 151 * Z.of_nat (length (filter (fun c => Spec.limit < c) counts))
     <= Spec.sum (filter (fun c => Spec.limit < c) counts).
Proof.
  unfold Spec.limit.
  induction counts as [| c counts (IH1 & IH2 & IH3 & IH4)]; [simpl; lia |].
  destruct (decide (c <= 150)) as [Hc | Hc].
  - rewrite (filter_cons_True (fun c => c <= 150)) by lia.
    rewrite (filter_cons_False (fun c => 150 < c)) by lia.
    simpl Spec.sum. simpl length. rewrite !Nat2Z.inj_succ. lia.
  - rewrite (filter_cons_False (fun c => c <= 150)) by lia.
    rewrite (filter_cons_True (fun c => 150 < c)) by lia.
    simpl Spec.sum. simpl length. rewrite !Nat2Z.inj_succ. lia.
Qed.

End MetricsFacts.

(** X23.  The metrics of a repository keep the limit visible: the files over
    the limit are at most all files; the lines within the limit are at most
    150 for each file that is not over it; and the lines that earn no credit
    are at least 151 for each file over the limit. *)
Theorem analyze_repository_limit_bounds (w : World) (fs : filesystem)
  (repo_dir : scratch_dir) (a : analysis) :
  analyze_repository w fs repo_dir = Ok a ->
  (files_over_limit a <= total_files a
   /\ lines_within_limit a <= 150 * (total_files a - files_over_limit a)
   /\ 151 * files_over_limit a <= total_lines a - lines_within_limit a)%Z.
Proof.
  intros H.
  destruct (AnalyzerFacts.analyze_repository_inv _ _ _ _ H) as (counts & _ & ->).
  destruct (MetricsFacts.split_counts counts) as (H1 & H2 & H3 & H4).
  simpl. lia.
Qed.

Lemma analyze_repository_limit_bounds_witness :
  (files_over_limit (Spec.metrics_of [200; 100]%Z)
   <= total_files (Spec.metrics_of [200; 100]%Z)
   /\ lines_within_limit (Spec.metrics_of [200; 100]%Z)
      <= 150 * (total_files (Spec.metrics_of [200; 100]%Z)
                - files_over_limit (Spec.metrics_of [200; 100]%Z))
   /\ 151 * files_over_limit (Spec.metrics_of [200; 100]%Z)
      <= total_lines (Spec.metrics_of [200; 100]%Z)
         - lines_within_limit (Spec.metrics_of [200; 100]%Z))%Z.
Proof.
  apply (analyze_repository_limit_bounds Examples.world
           (Examples.checked_out Examples.two_files) 0%nat).
  vm_compute. reflexivity.
Defined.
